(** * Choir-Mezmur-Lyrics: the Telegram bot's dispatcher and dialog state machine

    A shallow embedding of [handleUpdate] (main.go, the revision with the
    edit flow and the photo upload) and of the handlers it calls, followed
    by the properties of the per-user Add and Edit dialogs.

    Conventions of the embedding:
    - the global [userStates] map is a [gmap Z UserState] threaded through
      [handleUpdate];
    - every call that leaves the process (Telegram API, MongoDB, HTTP, file
      system) is appended to a trace of [Effect]s, and what it answers is
      read from a [World] record, one per handled update;
    - a Go run-time panic (index out of range, failed type assertion) ends
      the handler with [Panicked];
    - [log.Printf] output is not part of the trace. *)

From stdpp Require Import gmap strings list.
From Stdlib Require Import ZArith Ascii String.

Local Open Scope Z_scope.

(** ** Go's [strings] package, as far as the bot uses it *)

Module GoStrings.

(** One byte of [strings.ToLower] on ASCII input. *)
Definition lowerByte (c : ascii) : ascii :=
  let n := nat_of_ascii c in
  if ((65 <=? n) && (n <=? 90))%nat then ascii_of_nat (n + 32) else c.

(** [strings.ToLower], exact on ASCII strings. The bot applies it only to
    the second word of the four edit labels. *)
Fixpoint ToLower (s : string) : string :=
  match s with
  | EmptyString => EmptyString
  | String c s' => String (lowerByte c) (ToLower s')
  end.

(** ASCII instances of [strings.ToUpper] and [strings.TrimSpace], which
    are Unicode-aware in Go; the handlers take those two as parameters
    and the examples run them with these. *)
Definition upperByte (c : ascii) : ascii :=
  let n := nat_of_ascii c in
  if ((97 <=? n) && (n <=? 122))%nat then ascii_of_nat (n - 32) else c.

Fixpoint asciiToUpper (s : string) : string :=
  match s with
  | EmptyString => EmptyString
  | String c s' => String (upperByte c) (asciiToUpper s')
  end.

Definition isSpaceByte (c : ascii) : bool :=
  let n := nat_of_ascii c in
  ((n =? 32) || ((9 <=? n) && (n <=? 13)))%nat.

Fixpoint trimLeft (s : string) : string :=
  match s with
  | String c s' => if isSpaceByte c then trimLeft s' else s
  | EmptyString => EmptyString
  end.

Fixpoint trimRight (s : string) : string :=
  match s with
  | EmptyString => EmptyString
  | String c s' =>
      match trimRight s' with
      | EmptyString => if isSpaceByte c then EmptyString else String c EmptyString
      | t => String c t
      end
  end.

Definition asciiTrimSpace (s : string) : string := trimRight (trimLeft s).

(** [strings.Cut] for a one-byte separator: the text before and after the
    first occurrence of [sep]. *)
Fixpoint Cut (s : string) (sep : ascii) : option (string * string) :=
  match s with
  | EmptyString => None
  | String c s' =>
      if Ascii.eqb c sep then Some (EmptyString, s')
      else match Cut s' sep with
           | Some (a, b) => Some (String c a, b)
           | None => None
           end
  end.

(** [strings.SplitN(s, sep, n)] for a one-byte separator and [n >= 0]:
    at most [n] pieces, the last one being the unsplit remainder. *)
Fixpoint SplitN (s : string) (sep : ascii) (n : nat) : list string :=
  match n with
  | O => []
  | S O => [s]
  | S n' =>
      match Cut s sep with
      | None => [s]
      | Some (a, b) => a :: SplitN b sep n'
      end
  end.

(** [strings.Split(s, sep)]: every piece. A string of [k] bytes has at
    most [k] separators, hence at most [k + 1] pieces. *)
Definition Split (s : string) (sep : ascii) : list string :=
  SplitN s sep (S (String.length s)).

(** [strings.Join]. *)
Fixpoint Join (elems : list string) (sep : string) : string :=
  match elems with
  | [] => ""
  | [e] => e
  | e :: rest => e +:+ sep +:+ Join rest sep
  end.

End GoStrings.

(** The line feed of Go's ["\n"]. *)
Definition LF : string := String (ascii_of_nat 10) EmptyString.

(** ** Data model *)

(** [bson.M] documents: maps from field names to values. *)
#[warnings="-register-all"]
Inductive Bson :=
| BString (s : string)
| BInt (z : Z)
| BDoc (d : gmap string Bson).

Abbreviation Doc := (gmap string Bson).

(** The type assertion [v.(string)] on a document field; [None] is the
    failed assertion (missing field or another type). *)
Definition asString (v : option Bson) : option string :=
  match v with
  | Some (BString s) => Some s
  | _ => None
  end.

(** [type UserState struct]. *)
Record UserState := mkUserState {
  Stage : string;
  Title : string;
  Lyrics : string;
  Category : string;
  IsEditing : bool;
  EditField : string
}.

(** Go's composite literals leave the unnamed fields at their zero value:
    [UserState{Stage: "awaiting_title"}] is
    [mkUserState "awaiting_title" "" "" "" false ""]. *)

(** The parts of the Telegram library's types that the bot reads. *)
Module tgbotapi.

Record PhotoSize := { FileID : string }.

(** [Chat_ID] and [From_ID] are [Chat.ID] and [From.ID]; the messages
    handled here have a sender. [IsCommand], [Command] and
    [CommandArguments] hold what the library methods of those names return
    for the message. [Photo] is the [*[]PhotoSize] pointer: [None] is
    nil. *)
Record Message := {
  Chat_ID : Z;
  From_ID : Z;
  Text : string;
  Photo : option (list PhotoSize);
  IsCommand : bool;
  Command : string;
  CommandArguments : string
}.

(** [Msg] is [update.Message]; [None] is nil. *)
Record Update := { Msg : option Message }.

Inductive ReplyMarkup :=
| NoMarkup
| ReplyKeyboard (rows : list (list string))
| RemoveKeyboard (selective : bool)
| InlineKeyboard (rows : list (list (string * string))).

End tgbotapi.
Import tgbotapi.

(** Results of Go calls that return an [error] next to their value. *)
Inductive GoResult (A : Type) :=
| Ok (a : A)
| Failed.
Arguments Ok {A} a.
Arguments Failed {A}.

(** A MongoDB cursor: the documents it will yield, each of which may fail
    to decode. *)
Abbreviation Cursor := (list (GoResult Doc)).

(** What the outside answers while one update is handled. *)
Record World := {
  GetFileDirectURL : string -> GoResult string;
  downloadFile : string -> string -> GoResult unit;
  uploadImageToImgur : string -> GoResult string;
  InsertOne : Doc -> GoResult unit;
  UpdateOne : Doc -> Doc -> GoResult unit;
  FindOne : Doc -> GoResult Doc;
  Find : Doc -> GoResult Cursor;
  Aggregate : list Doc -> GoResult Cursor
}.

(** The calls that leave the process, in the order they are made. *)
Inductive Effect :=
| ESend (chatID : Z) (text : string) (markup : ReplyMarkup)
| EPhotoShare (chatID : Z) (url : string)
| EGetFileDirectURL (fileID : string)
| EDownloadFile (filepath url : string)
| EUploadImageToImgur (imagePath : string)
| ERemove (path : string)
| EInsertOne (doc : Doc)
| EUpdateOne (filter update : Doc)
| EFindOne (filter : Doc)
| EFind (filter : Doc)
| EAggregate (pipeline : list Doc).

Inductive Exit := Returned | Panicked.

(** [handleUpdate]'s result: the session table it leaves, the calls it
    made, and how it ended. *)
Record Outcome := mkOutcome {
  userStates : gmap Z UserState;
  trace : list Effect;
  exit : Exit
}.

(** ** Handlers that do not touch the session table

    They are written in a writer monad over the trace whose [None] result
    is a panic. *)

Definition M (A : Type) : Type := list Effect * option A.

Definition ret {A} (a : A) : M A := ([], Some a).

Definition bind {A B} (m : M A) (f : A -> M B) : M B :=
  match m with
  | (tr, None) => (tr, None)
  | (tr, Some a) => let '(tr', r) := f a in (tr ++ tr', r)
  end.

Definition emit (e : Effect) : M unit := ([e], Some tt).

Definition panic {A} : M A := ([], None).

Notation "'let*' x ':=' m 'in' k" := (bind m (fun x => k))
  (at level 10, x name, m at level 100, k at level 200).
Notation "'do' m 'then' k" := (bind m (fun _ => k))
  (at level 10, m at level 100, k at level 200).

(** [bot.Send(tgbotapi.NewMessage(chatID, text))]. *)
Definition send (chatID : Z) (text : string) : M unit :=
  emit (ESend chatID text NoMarkup).

Definition sendWith (chatID : Z) (text : string) (k : ReplyMarkup) : M unit :=
  emit (ESend chatID text k).

(** A handler run against a session table it leaves alone. *)
Definition stateless (s : gmap Z UserState) (h : M unit) : Outcome :=
  mkOutcome s (fst h)
    match snd h with Some _ => Returned | None => Panicked end.

(** The loop [for cursor.Next(ctx) { cursor.Decode(&result); songs =
    append(songs, result["title"].(string)) }] shared by the listing
    handlers: a document that fails to decode makes the handler return,
    a title that is not a string panics. *)
Fixpoint collectTitles (c : Cursor) (songs : list string)
  : M (GoResult (list string)) :=
  match c with
  | [] => ret (Ok songs)
  | Failed :: _ => ret Failed
  | Ok result :: rest =>
      match asString (result !! "title") with
      | Some t => collectTitles rest (songs ++ [t])
      | None => panic
      end
  end.

(** [tgbotapi.NewInlineKeyboardMarkup(buttons)] with one button per song,
    label and callback data both the title: a single row. *)
Definition songButtons (songs : list string) : ReplyMarkup :=
  InlineKeyboard [map (fun song => (song, song)) songs].

Definition mainMenuKeyboard : ReplyMarkup :=
  ReplyKeyboard
    [ ["🎵 Search Lyrics"; "📝 View All Songs"];
      ["👥 Choir Songs"; "🎵 Non-Choir Songs"];
      ["⬆️ Upload Image"; "➕ Add Song"];
      ["✏️ Edit Song"; "🎲 Random Song"];
      ["✏ Help"] ].

Definition sendMainMenu (chatID : Z) : M unit :=
  sendWith chatID
    "Welcome to Our Marantha Choir Lyrics Bot! Please select an option:"
    mainMenuKeyboard.

Definition helpCommand (message : Message) : M unit :=
  send (Chat_ID message)
    ("Here are some commands you can use:" +:+ LF +:+
     "/start - Start the bot" +:+ LF +:+
     "/help - Get help information" +:+ LF +:+
     "/lyrics <song title> - Get lyrics for a song").

(** [getLyricsFromDB]: [None] is the [exists = false] return. *)
Definition getLyricsFromDB (w : World) (title : string)
  : M (option (string * string)) :=
  let filter : Doc := {[ "title" := BString title ]} in
  do emit (EFindOne filter) then
  match FindOne w filter with
  | Failed => ret None
  | Ok result =>
      match asString (result !! "lyrics") with
      | None => panic
      | Some lyrics =>
          match asString (result !! "image") with
          | None => panic
          | Some imageURL => ret (Some (lyrics, imageURL))
          end
      end
  end.

Definition lyricsCommand (w : World) (message : Message) : M unit :=
  let songTitle := CommandArguments message in
  let* found := getLyricsFromDB w songTitle in
  match found with
  | Some (lyrics, imageURL) =>
      do emit (EPhotoShare (Chat_ID message) imageURL) then
      send (Chat_ID message) lyrics
  | None =>
      send (Chat_ID message) "Sorry, I couldn't find the lyrics for that song."
  end.

Definition imagePath : string := "temp_image.jpg".

(** [uploadImageCommand]. The deferred [os.Remove] runs when the function
    returns, once the download has succeeded. *)
Definition uploadImageCommand (w : World) (message : Message) : M unit :=
  match Photo message with
  | None => send (Chat_ID message) "Please attach an image to upload."
  | Some photos =>
      match last photos with
      | None => panic
      | Some photo =>
          do emit (EGetFileDirectURL (FileID photo)) then
          match GetFileDirectURL w (FileID photo) with
          | Failed => send (Chat_ID message) "Failed to process image."
          | Ok fileURL =>
              do emit (EDownloadFile imagePath fileURL) then
              match downloadFile w imagePath fileURL with
              | Failed => send (Chat_ID message) "Failed to download image."
              | Ok _ =>
                  do emit (EUploadImageToImgur imagePath) then
                  match uploadImageToImgur w imagePath with
                  | Failed =>
                      do send (Chat_ID message) "Failed to upload image to Imgur." then
                      emit (ERemove imagePath)
                  | Ok imgurLink =>
                      do send (Chat_ID message)
                           ("Image uploaded successfully: " +:+ imgurLink) then
                      emit (ERemove imagePath)
                  end
              end
          end
      end
  end.

Section Bot.

(** Go's [strings.ToUpper] and [strings.TrimSpace]. Both follow Unicode
    (case mapping of every letter, every white-space code point) and are
    applied to text the user typed, so they stay parameters. *)
Variable ToUpper : string -> string.
Variable TrimSpace : string -> string.

(** [addSongCommand]. [SplitN] with [n = 3] yields at most three pieces,
    so [len(args) != 3] is every shape but the three-element one. *)
Definition addSongCommand (w : World) (message : Message) : M unit :=
  match GoStrings.SplitN (CommandArguments message) "|" 3 with
  | [a0; a1; a2] =>
      let title := TrimSpace a0 in
      let lyrics := TrimSpace a1 in
      let imageURL := TrimSpace a2 in
      let doc : Doc :=
        {[ "title" := BString title;
           "lyrics" := BString lyrics;
           "image" := BString imageURL ]} in
      do emit (EInsertOne doc) then
      match InsertOne w doc with
      | Failed => send (Chat_ID message) "Failed to add song."
      | Ok _ => send (Chat_ID message) "Song added successfully!"
      end
  | _ =>
      send (Chat_ID message) "Usage: /addsong <title>|<lyrics>|<image_url>"
  end.

(** The query [{"title": {"$regex": "^" + prefix, "$options": "i"}}]. *)
Definition titlePrefixQuery (prefix : string) : Doc :=
  {[ "title" := BDoc {[ "$regex" := BString ("^" +:+ prefix);
                        "$options" := BString "i" ]} ]}.

(** [getSuggestions]: the matching titles, nil when the query or a
    decode fails. *)
Definition getSuggestions (w : World) (input : string) : M (list string) :=
  do emit (EFind (titlePrefixQuery input)) then
  match Find w (titlePrefixQuery input) with
  | Failed => ret []
  | Ok cursor =>
      let* r := collectTitles cursor [] in
      match r with
      | Failed => ret []
      | Ok matches => ret matches
      end
  end.

Definition defaultMessage (w : World) (message : Message) : M unit :=
  let responseText := "You said: " +:+ Text message in
  let* suggestions := getSuggestions w (Text message) in
  let responseText :=
    match suggestions with
    | [] => responseText
    | _ => responseText +:+ LF +:+ "Did you mean:" +:+ LF +:+
           GoStrings.Join suggestions LF
    end in
  send (Chat_ID message) responseText.

Definition handleAlphabetSelection (w : World) (message : Message) : M unit :=
  let alphabet := ToUpper (Text message) in
  if negb (String.length alphabet =? 1)%nat
     || String.ltb alphabet "A" || String.ltb "Z" alphabet
  then send (Chat_ID message) "Please select a valid alphabet (A-Z)."
  else
    do emit (EFind (titlePrefixQuery alphabet)) then
    match Find w (titlePrefixQuery alphabet) with
    | Failed => ret tt
    | Ok cursor =>
        let* r := collectTitles cursor [] in
        match r with
        | Failed => ret tt
        | Ok [] =>
            send (Chat_ID message)
              ("No songs found starting with " +:+ alphabet +:+ ".")
        | Ok songs =>
            sendWith (Chat_ID message) "Select a song to get the lyrics:"
              (songButtons songs)
        end
    end.

Definition showSongsByCategory (w : World) (message : Message)
    (category : string) : M unit :=
  let filter : Doc := {[ "category" := BString category ]} in
  do emit (EFind filter) then
  match Find w filter with
  | Failed => ret tt
  | Ok cursor =>
      let* r := collectTitles cursor [] in
      match r with
      | Failed => ret tt
      | Ok [] =>
          send (Chat_ID message) ("No " +:+ category +:+ " songs found.")
      | Ok songs =>
          sendWith (Chat_ID message) ("Select a " +:+ category +:+ " song:")
            (songButtons songs)
      end
  end.

(** The guarded assertion [if t, ok := result[k].(string); ok]. *)
Definition stringOr (result : Doc) (k : string) : string :=
  match asString (result !! k) with
  | Some v => v
  | None => ""
  end.

Definition getRandomSong (w : World) (message : Message) : M unit :=
  let pipeline : list Doc :=
    [ {[ "$sample" := BDoc {[ "size" := BInt 1 ]} ]} ] in
  do emit (EAggregate pipeline) then
  match Aggregate w pipeline with
  | Failed => send (Chat_ID message) "Failed to get random song."
  | Ok [] => send (Chat_ID message) "No songs found in the database."
  | Ok (Failed :: _) => send (Chat_ID message) "Failed to process random song."
  | Ok (Ok result :: _) =>
      let title := stringOr result "title" in
      let category := stringOr result "category" in
      let lyrics := stringOr result "lyrics" in
      do (match asString (result !! "image") with
          | Some imageURL =>
              if String.eqb imageURL "" then ret tt
              else emit (EPhotoShare (Chat_ID message) imageURL)
          | None => ret tt
          end) then
      send (Chat_ID message)
        ("Title: " +:+ title +:+ LF +:+ "Category: " +:+ category +:+ LF +:+
         LF +:+ "Lyrics:" +:+ LF +:+ lyrics)
  end.

(** ** Authorization gate *)

Definition adminIDs : list Z := [547900737; 1237680623].

Definition isAdmin (userID : Z) : bool :=
  existsb (fun id => id =? userID) adminIDs.

(** ** The dispatcher *)

(** The reply keyboards of the two dialogs. *)
Definition categoryKeyboard : ReplyMarkup :=
  ReplyKeyboard [ ["Choir"; "Non-Choir"] ].

Definition editKeyboard : ReplyMarkup :=
  ReplyKeyboard
    [ ["Edit Title"; "Edit Lyrics"];
      ["Edit Category"; "Edit Image"];
      ["Cancel"] ].

Definition helpText : string :=
  "Welcome to Maranatha Choir Lyrics Bot! 🎵" +:+ LF +:+ LF +:+
  "📱 Main Features:" +:+ LF +:+
  "🔍 Search Lyrics - Search for song lyrics by title" +:+ LF +:+
  "📝 View All Songs - Browse all songs alphabetically" +:+ LF +:+
  "👥 Choir Songs - View songs specific to choir" +:+ LF +:+
  "🎵 Non-Choir Songs - View other spiritual songs" +:+ LF +:+
  "🎲 Random Song - Get a random song from our collection" +:+ LF +:+ LF +:+
  "👨‍💼 Admin Features:" +:+ LF +:+
  "⬆️ Upload Image - Upload images for songs" +:+ LF +:+
  "➕ Add Song - Add new songs to the database" +:+ LF +:+
  "✏️ Edit Song - Modify existing songs" +:+ LF +:+ LF +:+
  "🔍 Search Tips:" +:+ LF +:+
  "• Use /lyrics <song title> to search directly" +:+ LF +:+
  "• Browse songs alphabetically by clicking letters" +:+ LF +:+
  "• Use the category buttons for filtered views" +:+ LF +:+ LF +:+
  "📜 Commands:" +:+ LF +:+
  "/start - Show main menu" +:+ LF +:+
  "/help - Show this help message" +:+ LF +:+
  "/lyrics <title> - Get lyrics for a specific song" +:+ LF +:+
  "/cancel - Cancel current operation" +:+ LF +:+ LF +:+
  "For any issues or song requests, please contact the administrators.".

(** [if update.Message.IsCommand() { switch update.Message.Command() ... }]
    (lines 108-139). *)
Definition commandBranch (w : World) (s : gmap Z UserState) (m : Message)
  : Outcome :=
  let cmd := Command m in
  if String.eqb cmd "start" then stateless s (sendMainMenu (Chat_ID m))
  else if String.eqb cmd "help" then stateless s (helpCommand m)
  else if String.eqb cmd "lyrics" then stateless s (lyricsCommand w m)
  else if String.eqb cmd "addsong" then
    if isAdmin (From_ID m) then stateless s (addSongCommand w m)
    else stateless s (send (Chat_ID m) "You are not authorized to add songs.")
  else if String.eqb cmd "uploadimage" then
    if isAdmin (From_ID m) then stateless s (uploadImageCommand w m)
    else stateless s (send (Chat_ID m) "You are not authorized to upload images.")
  else if String.eqb cmd "cancel" then
    match s !! From_ID m with
    | Some _ =>
        mkOutcome (delete (From_ID m) s)
          [ESend (Chat_ID m) "Song addition cancelled." NoMarkup] Returned
    | None => mkOutcome s [] Returned
    end
  else stateless s (defaultMessage w m).

(** The named cases of [switch update.Message.Text] (lines 142-224);
    [None] is the [default] case. *)
Definition buttonBranch (w : World) (s : gmap Z UserState) (m : Message)
  : option Outcome :=
  let text := Text m in
  if String.eqb text "🎵 Search Lyrics" then
    Some (stateless s (send (Chat_ID m)
      "Please enter a letter (A-Z) to see available songs, or use /lyrics <song title> to search directly."))
  else if String.eqb text "📝 View All Songs" then
    Some (stateless s (send (Chat_ID m)
      "Please select a letter (A-Z) to see songs starting with that letter:"))
  else if String.eqb text "⬆️ Upload Image" then
    if isAdmin (From_ID m) then
      Some (stateless s (send (Chat_ID m)
        "Please send me the image you want to upload."))
    else
      Some (stateless s (send (Chat_ID m)
        "You are not authorized to upload images."))
  else if String.eqb text "➕ Add Song" then
    if isAdmin (From_ID m) then
      Some (mkOutcome
        (<[From_ID m := mkUserState "awaiting_title" "" "" "" false ""]> s)
        [ESend (Chat_ID m)
           ("Please enter the song title:" +:+ LF +:+ "(or type /cancel to abort)")
           NoMarkup]
        Returned)
    else
      Some (stateless s (send (Chat_ID m)
        "You are not authorized to add songs."))
  else if String.eqb text "❓ Help" then
    Some (stateless s (send (Chat_ID m) helpText))
  else if String.eqb text "👥 Choir Songs" then
    Some (stateless s (showSongsByCategory w m "Choir"))
  else if String.eqb text "🎵 Non-Choir Songs" then
    Some (stateless s (showSongsByCategory w m "Non-Choir"))
  else if String.eqb text "✏️ Edit Song" then
    if isAdmin (From_ID m) then
      Some (mkOutcome
        (<[From_ID m := mkUserState "edit_select_song" "" "" "" true ""]> s)
        [ESend (Chat_ID m)
           "Please enter the title of the song you want to edit:" NoMarkup]
        Returned)
    else
      Some (stateless s (send (Chat_ID m)
        "You are not authorized to edit songs."))
  else if String.eqb text "🎲 Random Song" then
    Some (stateless s (getRandomSong w m))
  else None.

(** The tail of the [awaiting_image] case (lines 311-327): insert the
    song, report, delete the session. [before] holds the media calls
    already made, [after] the deferred [os.Remove] when there is one. *)
Definition insertSong (w : World) (s : gmap Z UserState) (m : Message)
    (state : UserState) (imageURL : string) (before after : list Effect)
  : Outcome :=
  let doc : Doc :=
    {[ "title" := BString (Title state);
       "lyrics" := BString (Lyrics state);
       "image" := BString imageURL;
       "category" := BString (Category state) ]} in
  let report :=
    match InsertOne w doc with
    | Failed => "Failed to add song."
    | Ok _ => "Song added successfully!"
    end in
  mkOutcome (delete (From_ID m) s)
    (before ++ [EInsertOne doc; ESend (Chat_ID m) report NoMarkup] ++ after)
    Returned.

(** [switch state.Stage] (lines 229-407) for the session [state] found
    for the sender. [Some] is a case that ends in [return]; [None] is
    control leaving the switch (no case matched, or the inner switch of
    [edit_select_field] matched nothing). *)
Definition stageBranch (w : World) (s : gmap Z UserState) (m : Message)
    (state : UserState) : option Outcome :=
  let from := From_ID m in
  let chat := Chat_ID m in
  let text := Text m in
  if String.eqb (Stage state) "awaiting_title" then
    Some (mkOutcome
      (<[from := mkUserState "awaiting_category" text "" "" false ""]> s)
      [ESend chat "Please select the song category:" categoryKeyboard]
      Returned)
  else if String.eqb (Stage state) "awaiting_category" then
    if negb (String.eqb text "Choir") && negb (String.eqb text "Non-Choir") then
      Some (mkOutcome s
        [ESend chat "Please select a valid category (Choir/Non-Choir):" NoMarkup]
        Returned)
    else
      Some (mkOutcome
        (<[from := mkUserState "awaiting_lyrics" (Title state) "" text false ""]> s)
        [ESend chat "Great! Now please enter the lyrics:" (RemoveKeyboard true)]
        Returned)
  else if String.eqb (Stage state) "awaiting_lyrics" then
    Some (mkOutcome
      (<[from := mkUserState "awaiting_image" (Title state) text
                   (Category state) false ""]> s)
      [ESend chat "Perfect! Now please send the image URL or upload an image:"
         NoMarkup]
      Returned)
  else if String.eqb (Stage state) "awaiting_image" then
    match Photo m with
    | Some photos =>
        match last photos with
        | None => Some (mkOutcome s [] Panicked)
        | Some photo =>
            match GetFileDirectURL w (FileID photo) with
            | Failed =>
                Some (mkOutcome s
                  [EGetFileDirectURL (FileID photo);
                   ESend chat "Failed to process image." NoMarkup]
                  Returned)
            | Ok fileURL =>
                match downloadFile w imagePath fileURL with
                | Failed =>
                    Some (mkOutcome s
                      [EGetFileDirectURL (FileID photo);
                       EDownloadFile imagePath fileURL;
                       ESend chat "Failed to download image." NoMarkup]
                      Returned)
                | Ok _ =>
                    match uploadImageToImgur w imagePath with
                    | Failed =>
                        Some (mkOutcome s
                          [EGetFileDirectURL (FileID photo);
                           EDownloadFile imagePath fileURL;
                           EUploadImageToImgur imagePath;
                           ESend chat "Failed to upload image to Imgur." NoMarkup;
                           ERemove imagePath]
                          Returned)
                    | Ok imgurURL =>
                        Some (insertSong w s m state imgurURL
                          [EGetFileDirectURL (FileID photo);
                           EDownloadFile imagePath fileURL;
                           EUploadImageToImgur imagePath]
                          [ERemove imagePath])
                    end
                end
            end
        end
    | None => Some (insertSong w s m state text [] [])
    end
  else if String.eqb (Stage state) "edit_select_song" then
    let filter : Doc := {[ "title" := BString text ]} in
    match FindOne w filter with
    | Failed =>
        Some (mkOutcome s
          [EFindOne filter;
           ESend chat "Song not found. Please try again:" NoMarkup]
          Returned)
    | Ok _ =>
        Some (mkOutcome
          (<[from := mkUserState "edit_select_field" text "" "" true ""]> s)
          [EFindOne filter;
           ESend chat "What would you like to edit?" editKeyboard]
          Returned)
    end
  else if String.eqb (Stage state) "edit_select_field" then
    if String.eqb text "Edit Title" || String.eqb text "Edit Lyrics"
       || String.eqb text "Edit Category" || String.eqb text "Edit Image"
    then
      match GoStrings.Split text " " !! 1%nat with
      | None => Some (mkOutcome s [] Panicked)
      | Some word =>
          let field := GoStrings.ToLower word in
          Some (mkOutcome
            (<[from := mkUserState "edit_enter_value" (Title state) "" ""
                         true field]> s)
            [ESend chat ("Please enter the new " +:+ field +:+ ":")
               (RemoveKeyboard true)]
            Returned)
      end
    else if String.eqb text "Cancel" then
      Some (mkOutcome (delete from s)
        (ESend chat "Edit cancelled." (RemoveKeyboard true)
         :: fst (sendMainMenu chat))
        Returned)
    else None
  else if String.eqb (Stage state) "edit_enter_value" then
    let filter : Doc := {[ "title" := BString (Title state) ]} in
    let updateDoc : Doc :=
      {[ "$set" := BDoc {[ EditField state := BString text ]} ]} in
    let report :=
      match UpdateOne w filter updateDoc with
      | Failed => "Failed to update the song."
      | Ok _ => "Song updated successfully!"
      end in
    Some (mkOutcome (delete from s)
      ([EUpdateOne filter updateDoc; ESend chat report NoMarkup]
       ++ fst (sendMainMenu chat))
      Returned)
  else None.

(** [handleUpdate] (lines 102-412): commands first, then the menu
    labels, then, for an administrator who has a session, the stage of
    that session; whatever is left goes to [handleAlphabetSelection]. *)
Definition handleUpdate (w : World) (s : gmap Z UserState) (update : Update)
  : Outcome :=
  match Msg update with
  | None => mkOutcome s [] Returned
  | Some m =>
      if IsCommand m then commandBranch w s m
      else
        match buttonBranch w s m with
        | Some out => out
        | None =>
            let staged :=
              if isAdmin (From_ID m) then
                match s !! From_ID m with
                | Some state => stageBranch w s m state
                | None => None
                end
              else None in
            match staged with
            | Some out => out
            | None => stateless s (handleAlphabetSelection w m)
            end
        end
  end.

(** The loop of [main] over the updates that carry a message, each
    handled in the world of its moment; a panic ends the process. *)
Fixpoint run (s : gmap Z UserState) (updates : list (World * Update))
  : Outcome :=
  match updates with
  | [] => mkOutcome s [] Returned
  | (w, update) :: rest =>
      let out := handleUpdate w s update in
      match exit out with
      | Panicked => out
      | Returned =>
          let out' := run (userStates out) rest in
          mkOutcome (userStates out') (trace out ++ trace out') (exit out')
      end
  end.

(** ** Vocabulary of the properties *)

(** The labels named by the cases of [switch update.Message.Text]. *)
Definition menuLabels : list string :=
  [ "🎵 Search Lyrics"; "📝 View All Songs"; "⬆️ Upload Image";
    "➕ Add Song"; "❓ Help"; "👥 Choir Songs"; "🎵 Non-Choir Songs";
    "✏️ Edit Song"; "🎲 Random Song" ].

Definition isMenuLabel (text : string) : bool :=
  existsb (String.eqb text) menuLabels.

(** A message of user [u] that gets past the command check and the menu
    labels, and so is offered to the stage of [u]'s session. *)
Definition freeText (u : Z) (m : Message) : Prop :=
  From_ID m = u /\ IsCommand m = false /\ isMenuLabel (Text m) = false.

Definition updateOf (m : Message) : Update := {| Msg := Some m |}.

(** The conditions under which [handleUpdate] reaches [switch state.Stage]
    with the session [st]: the message is not a command, its text is not a
    menu label, its sender is an administrator and holds [st]. *)
Definition offeredToStage (s : gmap Z UserState) (m : Message) (st : UserState)
  : Prop :=
  IsCommand m = false /\ isMenuLabel (Text m) = false
  /\ isAdmin (From_ID m) = true /\ s !! From_ID m = Some st.

Definition isInsertOne (e : Effect) : bool :=
  match e with EInsertOne _ => true | _ => false end.

Definition isUpdateOne (e : Effect) : bool :=
  match e with EUpdateOne _ _ => true | _ => false end.

Definition isCatalogWrite (e : Effect) : bool :=
  isInsertOne e || isUpdateOne e.

(** No [InsertOne] and no [UpdateOne] among the calls of [h]. *)
Definition readOnly {A} (h : M A) : Prop :=
  List.filter isCatalogWrite (fst h) = [].

(** The image URL that the [awaiting_image] step arrives at: the text
    when there is no photo, the link returned by the image host when the
    photo goes through all three media calls. *)
Definition resolveImage (w : World) (m : Message) : option string :=
  match Photo m with
  | None => Some (Text m)
  | Some photos =>
      match last photos with
      | None => None
      | Some photo =>
          match GetFileDirectURL w (FileID photo) with
          | Failed => None
          | Ok fileURL =>
              match downloadFile w imagePath fileURL with
              | Failed => None
              | Ok _ =>
                  match uploadImageToImgur w imagePath with
                  | Failed => None
                  | Ok imgurURL => Some imgurURL
                  end
              end
          end
      end
  end.

(** The three ways the media calls for [photo] can fail, each with the
    message the user is sent. *)
Inductive mediaFails (w : World) (photo : PhotoSize) : string -> Prop :=
| fails_url :
    GetFileDirectURL w (FileID photo) = Failed ->
    mediaFails w photo "Failed to process image."
| fails_download fileURL :
    GetFileDirectURL w (FileID photo) = Ok fileURL ->
    downloadFile w imagePath fileURL = Failed ->
    mediaFails w photo "Failed to download image."
| fails_upload fileURL :
    GetFileDirectURL w (FileID photo) = Ok fileURL ->
    downloadFile w imagePath fileURL = Ok tt ->
    uploadImageToImgur w imagePath = Failed ->
    mediaFails w photo "Failed to upload image to Imgur.".

(** The edit labels and the catalog field each one selects. *)
Definition editFields : list (string * string) :=
  [ ("Edit Title", "title"); ("Edit Lyrics", "lyrics");
    ("Edit Category", "category"); ("Edit Image", "image") ].

(** Updates sent by users other than [u]. *)
Definition fromOthers (u : Z) (updates : list (World * Update)) : Prop :=
  Forall (fun wu => forall m, Msg (snd wu) = Some m -> From_ID m <> u) updates.

(** ** Concrete worlds and messages for the examples *)

(** Every outside call succeeds; the catalog knows every title. *)
Definition quietWorld : World := {|
  GetFileDirectURL := fun fileID => Ok ("https://api.telegram.org/file/" +:+ fileID);
  downloadFile := fun _ _ => Ok tt;
  uploadImageToImgur := fun _ => Ok "https://i.imgur.com/night.jpg";
  InsertOne := fun _ => Ok tt;
  UpdateOne := fun _ _ => Ok tt;
  FindOne := fun filter => Ok filter;
  Find := fun _ => Ok [];
  Aggregate := fun _ => Ok []
|}.

(** The image host refuses the upload. *)
Definition imgurDownWorld : World := {|
  GetFileDirectURL := GetFileDirectURL quietWorld;
  downloadFile := downloadFile quietWorld;
  uploadImageToImgur := fun _ => Failed;
  InsertOne := InsertOne quietWorld;
  UpdateOne := UpdateOne quietWorld;
  FindOne := FindOne quietWorld;
  Find := Find quietWorld;
  Aggregate := Aggregate quietWorld
|}.

(** The catalog refuses every write. *)
Definition mongoDownWorld : World := {|
  GetFileDirectURL := GetFileDirectURL quietWorld;
  downloadFile := downloadFile quietWorld;
  uploadImageToImgur := uploadImageToImgur quietWorld;
  InsertOne := fun _ => Failed;
  UpdateOne := fun _ _ => Failed;
  FindOne := fun _ => Failed;
  Find := fun _ => Failed;
  Aggregate := fun _ => Failed
|}.

Definition anAdmin : Z := 547900737.
Definition aVisitor : Z := 42.

Definition textFrom (u : Z) (text : string) : Message := {|
  Chat_ID := u; From_ID := u; Text := text; Photo := None;
  IsCommand := false; Command := ""; CommandArguments := ""
|}.

Definition photoFrom (u : Z) (fileID : string) : Message := {|
  Chat_ID := u; From_ID := u; Text := "";
  Photo := Some [ {| FileID := fileID |} ];
  IsCommand := false; Command := ""; CommandArguments := ""
|}.

Definition commandFrom (u : Z) (command : string) : Message := {|
  Chat_ID := u; From_ID := u; Text := "/" +:+ command; Photo := None;
  IsCommand := true; Command := command; CommandArguments := ""
|}.

(** A session in the given stage of the Add flow for "Night Song". *)
Definition nightSong (stage : string) : UserState :=
  mkUserState stage "Night Song" "La la la" "Choir" false "".

(** ** Inline callbacks *)

(** The parts of [tgbotapi.CallbackQuery] that [handleCallbackQuery]
    reads. [CQ_Message] is the [*Message] pointer: [None] is nil, as for
    a callback that comes from an inline-mode message. *)
Record CallbackQuery := {
  CQ_ID : string;
  CQ_Data : string;
  CQ_Message : option Message
}.

(** The calls of [handleCallbackQuery]: those of the other handlers, and
    [bot.AnswerCallbackQuery(tgbotapi.NewCallback(id, text))]. *)
Inductive CallbackEffect :=
| Called (e : Effect)
| EAnswerCallbackQuery (callbackQueryID text : string).

(** [switch callbackQuery.Data] of [handleCallbackQuery] (lines 617-637).
    [callbackQuery.Message.Chat.ID] on a nil [Message] panics; in the
    default case the catalog is asked before the chat is read. *)
Definition callbackReply (w : World) (callbackQuery : CallbackQuery) : M unit :=
  let data := CQ_Data callbackQuery in
  if String.eqb data "popular_series" || String.eqb data "new_series"
     || String.eqb data "popular_movies" || String.eqb data "new_movies"
     || String.eqb data "popular_anime" || String.eqb data "new_anime"
  then
    match CQ_Message callbackQuery with
    | None => panic
    | Some message =>
        send (Chat_ID message)
          ("You selected: " +:+ data +:+ LF +:+ "This feature is coming soon!")
    end
  else
    let songTitle := data in
    let* found := getLyricsFromDB w songTitle in
    match found with
    | Some (lyrics, imageURL) =>
        match CQ_Message callbackQuery with
        | None => panic
        | Some message =>
            do emit (EPhotoShare (Chat_ID message) imageURL) then
            send (Chat_ID message) lyrics
        end
    | None =>
        match CQ_Message callbackQuery with
        | None => panic
        | Some message =>
            send (Chat_ID message)
              "Sorry, I couldn't find the lyrics for that song."
        end
    end.

(** [handleCallbackQuery] (lines 616-640): the reply, then the answer to
    the callback with an empty text. *)
Definition handleCallbackQuery (w : World) (callbackQuery : CallbackQuery)
  : list CallbackEffect * Exit :=
  match callbackReply w callbackQuery with
  | (tr, Some _) =>
      (map Called tr ++ [EAnswerCallbackQuery (CQ_ID callbackQuery) ""], Returned)
  | (tr, None) => (map Called tr, Panicked)
  end.

(** ** Vocabulary of the further properties *)

(** The six tokens of the first case of [switch callbackQuery.Data]. *)
Definition placeholderTokens : list string :=
  [ "popular_series"; "new_series"; "popular_movies"; "new_movies";
    "popular_anime"; "new_anime" ].

Definition isCategory (c : string) : bool :=
  String.eqb c "Choir" || String.eqb c "Non-Choir".

Definition isCatalogField (f : string) : bool :=
  existsb (String.eqb f) (editFields.*2).

(** The shape of the sessions that the dispatcher writes, stage by stage:
    which fields are still at their zero value, that the category is one of
    the two accepted ones once it is stored, that [IsEditing] marks the
    edit stages, and that [EditField] is a catalog field once it is
    stored. *)
Definition wellFormed (st : UserState) : bool :=
  let blank := String.eqb "" in
  if String.eqb (Stage st) "awaiting_title" then
    blank (Title st) && blank (Lyrics st) && blank (Category st)
    && negb (IsEditing st) && blank (EditField st)
  else if String.eqb (Stage st) "awaiting_category" then
    blank (Lyrics st) && blank (Category st)
    && negb (IsEditing st) && blank (EditField st)
  else if String.eqb (Stage st) "awaiting_lyrics" then
    blank (Lyrics st) && isCategory (Category st)
    && negb (IsEditing st) && blank (EditField st)
  else if String.eqb (Stage st) "awaiting_image" then
    isCategory (Category st) && negb (IsEditing st) && blank (EditField st)
  else if String.eqb (Stage st) "edit_select_song" then
    blank (Title st) && blank (Lyrics st) && blank (Category st)
    && IsEditing st && blank (EditField st)
  else if String.eqb (Stage st) "edit_select_field" then
    blank (Lyrics st) && blank (Category st)
    && IsEditing st && blank (EditField st)
  else if String.eqb (Stage st) "edit_enter_value" then
    blank (Lyrics st) && blank (Category st)
    && IsEditing st && isCatalogField (EditField st)
  else false.

(** Every session belongs to an administrator and has the shape above. *)
Definition wellFormedTable (s : gmap Z UserState) : Prop :=
  map_Forall (fun u st => isAdmin u = true /\ wellFormed st = true) s.

(** The writes that the dialogs can issue: an insert of the four song
    fields with an accepted category, or an update that sets one catalog
    field of the song with a given title. *)
Definition dialogWrite (e : Effect) : Prop :=
  (exists title lyrics image category,
     e = EInsertOne {[ "title" := BString title; "lyrics" := BString lyrics;
                       "image" := BString image;
                       "category" := BString category ]}
     /\ isCategory category = true)
  \/ (exists title field value,
        e = EUpdateOne {[ "title" := BString title ]}
              {[ "$set" := BDoc {[ field := BString value ]} ]}
        /\ isCatalogField field = true).

(** An input that its stage turns down: a category that is not one of the
    two accepted ones, a title that the catalog does not find, or a photo
    for which a media call fails. *)
Definition rejected (w : World) (s : gmap Z UserState) (update : Update) : Prop :=
  exists m st,
    Msg update = Some m /\ offeredToStage s m st
    /\ ((Stage st = "awaiting_category"
         /\ Text m <> "Choir" /\ Text m <> "Non-Choir")
        \/ (Stage st = "edit_select_song"
            /\ FindOne w {[ "title" := BString (Text m) ]} = Failed)
        \/ (Stage st = "awaiting_image"
            /\ exists photos photo failure,
                 Photo m = Some photos /\ last photos = Some photo
                 /\ mediaFails w photo failure)).

(** The title under which the listing handlers show a document. *)
Definition titled (d : Doc) : Prop := is_Some (asString (d !! "title")).

(** A single byte between "A" and "Z". *)
Definition isCapital (a : string) : Prop :=
  exists c, a = String c EmptyString /\ (65 <= nat_of_ascii c <= 90)%nat.

(** A query whose result cannot be read to the end: it fails, or a
    document fails to decode after documents that all have titles. *)
Definition unreadable (r : GoResult Cursor) : Prop :=
  r = Failed
  \/ exists docs rest, r = Ok (map Ok docs ++ Failed :: rest) /\ Forall titled docs.

(** The senders of the updates of a run. *)
Definition sends (updates : list (World * Update)) (u : Z) : Prop :=
  Exists (fun wu => exists m, Msg (snd wu) = Some m /\ From_ID m = u) updates.

(** How often the byte [sep] occurs in [s]. *)
Fixpoint countByte (sep : ascii) (s : string) : nat :=
  match s with
  | EmptyString => 0
  | String c s' => (if Ascii.eqb c sep then 1 else 0) + countByte sep s'
  end.

(** A catalog whose documents all carry string titles, lyrics and images,
    as the documents written by this bot do. *)
Definition songDoc (d : Doc) : Prop :=
  is_Some (asString (d !! "title")) /\ is_Some (asString (d !! "lyrics"))
  /\ is_Some (asString (d !! "image")).

Definition songCursor (c : Cursor) : Prop :=
  Forall (fun item => match item with Ok d => songDoc d | Failed => True end) c.

Definition songCatalog (w : World) : Prop :=
  (forall filter d, FindOne w filter = Ok d -> songDoc d)
  /\ (forall filter c, Find w filter = Ok c -> songCursor c).

(** The handler [h] does not panic. *)
Definition returns {A} (h : M A) : Prop := is_Some (snd h).

(** An update that the process survives by the theorem below: the catalog
    of its moment holds song documents and its message, if it has photos,
    has at least one. *)
Definition safeUpdate (wu : World * Update) : Prop :=
  songCatalog (fst wu)
  /\ forall m, Msg (snd wu) = Some m -> Photo m <> Some [].

(** A catalog with two songs, and one whose only document has no image. *)
Definition nightDoc : Doc :=
  {[ "title" := BString "Night Song"; "lyrics" := BString "La la la";
     "image" := BString "https://i.imgur.com/night.jpg";
     "category" := BString "Choir" ]}.

Definition noonDoc : Doc :=
  {[ "title" := BString "Noon Song"; "lyrics" := BString "Do re mi";
     "image" := BString "https://i.imgur.com/noon.jpg";
     "category" := BString "Choir" ]}.

Definition bareDoc : Doc := {[ "title" := BString "Bare Song" ]}.

Definition twoSongsWorld : World := {|
  GetFileDirectURL := GetFileDirectURL quietWorld;
  downloadFile := downloadFile quietWorld;
  uploadImageToImgur := uploadImageToImgur quietWorld;
  InsertOne := InsertOne quietWorld;
  UpdateOne := UpdateOne quietWorld;
  FindOne := fun _ => Ok nightDoc;
  Find := fun _ => Ok [Ok nightDoc; Ok noonDoc];
  Aggregate := fun _ => Ok [Ok nightDoc]
|}.

Definition bareWorld : World := {|
  GetFileDirectURL := GetFileDirectURL quietWorld;
  downloadFile := downloadFile quietWorld;
  uploadImageToImgur := uploadImageToImgur quietWorld;
  InsertOne := InsertOne quietWorld;
  UpdateOne := UpdateOne quietWorld;
  FindOne := fun _ => Ok bareDoc;
  Find := fun _ => Ok [Ok nightDoc; Failed; Ok bareDoc];
  Aggregate := fun _ => Ok [Ok bareDoc]
|}.

Definition callbackFrom (u : Z) (data : string) : CallbackQuery := {|
  CQ_ID := "cb-1"; CQ_Data := data; CQ_Message := Some (textFrom u "")
|}.

(** ** How the dispatcher routes a message *)

(** Decide the comparisons between two string literals in the goal. *)
Ltac literal_eqb :=
  repeat match goal with
  | |- context [String.eqb ?a ?b] =>
      let v := eval vm_compute in (String.eqb a b) in
      match v with
      | true => change (String.eqb a b) with true
      | false => change (String.eqb a b) with false
      end
  end;
  cbv beta iota.

(** Enter the case of [switch state.Stage] named by [H : Stage st = _]. *)
Ltac enter_stage H :=
  unfold stageBranch; cbv zeta; rewrite H; literal_eqb.

Lemma isMenuLabel_false_inv (text : string) :
  isMenuLabel text = false ->
  Forall (fun label => String.eqb text label = false) menuLabels.
Proof.
  unfold isMenuLabel. induction menuLabels as [|l ls IH]; simpl; intros H.
  - constructor.
  - apply orb_false_elim in H as [H1 H2]. constructor; auto.
Qed.

Lemma buttonBranch_free (w : World) (s : gmap Z UserState) (m : Message) :
  isMenuLabel (Text m) = false -> buttonBranch w s m = None.
Proof.
  intros H. apply isMenuLabel_false_inv in H. unfold menuLabels in H.
  repeat match goal with
  | H : Forall _ (_ :: _) |- _ => apply Forall_cons_1 in H as [? H]
  end.
  unfold buttonBranch; cbv zeta.
  repeat match goal with
  | E : String.eqb _ _ = false |- _ => rewrite E; clear E
  end.
  reflexivity.
Qed.

Lemma buttonBranch_label (w : World) (s : gmap Z UserState) (m : Message) :
  isMenuLabel (Text m) = true -> is_Some (buttonBranch w s m).
Proof.
  unfold isMenuLabel, menuLabels, buttonBranch; simpl. intros H.
  repeat match goal with
  | |- context [String.eqb (Text m) ?l] =>
      destruct (String.eqb (Text m) l); simpl in H
  | |- context [isAdmin ?u] => destruct (isAdmin u)
  end; eauto; discriminate.
Qed.

(** A free text of an administrator who holds a session is decided by
    the stage of that session. *)
Lemma handleUpdate_staged (w : World) (s : gmap Z UserState) (m : Message)
    (st : UserState) :
  IsCommand m = false -> isMenuLabel (Text m) = false ->
  isAdmin (From_ID m) = true -> s !! From_ID m = Some st ->
  handleUpdate w s (updateOf m) =
    match stageBranch w s m st with
    | Some out => out
    | None => stateless s (handleAlphabetSelection w m)
    end.
Proof.
  intros Hc Hl Ha Hs. unfold handleUpdate, updateOf; simpl.
  by rewrite Hc, (buttonBranch_free _ _ _ Hl), Ha, Hs.
Qed.

Lemma handleUpdate_offered (w : World) (s : gmap Z UserState) (m : Message)
    (st : UserState) :
  offeredToStage s m st ->
  handleUpdate w s (updateOf m) =
    match stageBranch w s m st with
    | Some out => out
    | None => stateless s (handleAlphabetSelection w m)
    end.
Proof. intros (Hc & Hl & Ha & Hs). by apply handleUpdate_staged. Qed.

(** A free text of anyone else goes to the alphabet handler. *)
Lemma handleUpdate_idle (w : World) (s : gmap Z UserState) (m : Message) :
  IsCommand m = false -> isMenuLabel (Text m) = false ->
  isAdmin (From_ID m) = false \/ s !! From_ID m = None ->
  handleUpdate w s (updateOf m) = stateless s (handleAlphabetSelection w m).
Proof.
  intros Hc Hl Hidle. unfold handleUpdate, updateOf; simpl.
  rewrite Hc, (buttonBranch_free _ _ _ Hl).
  destruct Hidle as [Ha | Hs]; [by rewrite Ha |].
  rewrite Hs. by destruct (isAdmin _).
Qed.

(** [handleUpdate] writes no session but the sender's. *)
Lemma stageBranch_frame (w : World) (s : gmap Z UserState) (m : Message)
    (st : UserState) (out : Outcome) (k : Z) :
  stageBranch w s m st = Some out -> k <> From_ID m ->
  userStates out !! k = s !! k.
Proof.
  unfold stageBranch, insertSong; cbv zeta. intros H Hk.
  repeat case_match; simplify_eq; simpl;
    rewrite ?lookup_insert_ne, ?lookup_delete_ne by done; done.
Qed.

Lemma handleUpdate_frame (w : World) (s : gmap Z UserState) (update : Update)
    (k : Z) :
  (forall m, Msg update = Some m -> From_ID m <> k) ->
  userStates (handleUpdate w s update) !! k = s !! k.
Proof.
  intros Hk. unfold handleUpdate.
  destruct (Msg update) as [m|] eqn:Hm; [|done].
  specialize (Hk m eq_refl).
  destruct (IsCommand m).
  - unfold commandBranch, stateless; cbv zeta.
    repeat case_match; simpl; rewrite ?lookup_delete_ne by done; done.
  - destruct (buttonBranch w s m) as [out|] eqn:Hb.
    + revert Hb. unfold buttonBranch, stateless; cbv zeta.
      repeat case_match; intros; simplify_eq; simpl;
        rewrite ?lookup_insert_ne by done; done.
    + destruct (isAdmin (From_ID m)); [|done].
      destruct (s !! From_ID m) as [st|]; [|done].
      destruct (stageBranch w s m st) as [out|] eqn:Hst; [|done].
      eapply stageBranch_frame; eauto.
Qed.

Lemma run_frame (s : gmap Z UserState) (updates : list (World * Update))
    (u : Z) :
  fromOthers u updates -> userStates (run s updates) !! u = s !! u.
Proof.
  intros H. revert s. induction H as [|[w update] rest Hhd _ IH]; intros s.
  - done.
  - simpl. destruct (exit (handleUpdate w s update)); simpl.
    + rewrite IH. by apply handleUpdate_frame.
    + by apply handleUpdate_frame.
Qed.

(** ** Single steps of the dialogs *)

(** C9. A non-privileged user who sends the "➕ Add Song" label is sent
    the denial message and nothing else happens: the session table is
    returned as it was, so no session is created for that user. *)
Theorem add_button_denied_without_privilege
    (w : World) (s : gmap Z UserState) (m : Message) :
  isAdmin (From_ID m) = false ->
  IsCommand m = false ->
  Text m = "➕ Add Song" ->
  handleUpdate w s (updateOf m) =
    mkOutcome s
      [ESend (Chat_ID m) "You are not authorized to add songs." NoMarkup]
      Returned.
Proof.
  intros Ha Hc Ht. unfold handleUpdate, updateOf; simpl. rewrite Hc.
  unfold buttonBranch; cbv zeta. rewrite Ht. literal_eqb. by rewrite Ha.
Qed.

(** C7. In the Add flow, a text that is neither "Choir" nor "Non-Choir"
    makes the [awaiting_category] case reprompt and return the session
    table unchanged. So whenever [handleUpdate] offers such a text to that
    stage, the session stays at [awaiting_category] with its title,
    category and lyrics as they were. *)
Theorem invalid_category_reprompts
    (w : World) (s : gmap Z UserState) (m : Message) (st : UserState) :
  Stage st = "awaiting_category" ->
  Text m <> "Choir" ->
  Text m <> "Non-Choir" ->
  let out :=
    mkOutcome s
      [ESend (Chat_ID m) "Please select a valid category (Choir/Non-Choir):"
         NoMarkup]
      Returned in
  stageBranch w s m st = Some out
  /\ (offeredToStage s m st ->
      handleUpdate w s (updateOf m) = out
      /\ userStates (handleUpdate w s (updateOf m)) !! From_ID m = Some st).
Proof.
  intros Hst H1 H2. cbv zeta.
  assert (stageBranch w s m st =
          Some (mkOutcome s
            [ESend (Chat_ID m) "Please select a valid category (Choir/Non-Choir):"
               NoMarkup] Returned)) as Hstage.
  { enter_stage Hst. apply String.eqb_neq in H1, H2. by rewrite H1, H2. }
  split; [done|]. intros Hoff.
  rewrite (handleUpdate_offered _ _ _ _ Hoff), Hstage. split; [done|].
  apply Hoff.
Qed.

(** C10. At [edit_select_field], a text that is none of the four field
    labels and not "Cancel" matches no case of the inner switch: the stage
    neither rejects it nor reprompts. So whenever [handleUpdate] offers
    such a text to that stage, the session table is returned unchanged,
    the session still at [edit_select_field], and the message is handled
    by [handleAlphabetSelection]. *)
Theorem unmatched_edit_field_falls_through
    (w : World) (s : gmap Z UserState) (m : Message) (st : UserState) :
  Stage st = "edit_select_field" ->
  Text m ∉ editFields.*1 ->
  Text m <> "Cancel" ->
  stageBranch w s m st = None
  /\ (offeredToStage s m st ->
      handleUpdate w s (updateOf m) = stateless s (handleAlphabetSelection w m)
      /\ userStates (handleUpdate w s (updateOf m)) !! From_ID m = Some st).
Proof.
  intros Hst Hf Hcancel.
  assert (stageBranch w s m st = None) as Hstage.
  { enter_stage Hst.
    assert (forall l, l ∈ editFields.*1 -> String.eqb (Text m) l = false) as Hne.
    { intros l Hin. apply String.eqb_neq. intros <-. done. }
    rewrite !Hne by (simpl; set_solver).
    apply String.eqb_neq in Hcancel. by rewrite Hcancel. }
  split; [done|]. intros Hoff.
  rewrite (handleUpdate_offered _ _ _ _ Hoff), Hstage. split; [done|].
  apply Hoff.
Qed.

(** C8. At [edit_enter_value] every text has one update issued and the
    session deleted, whether the update succeeds or fails; the user is
    told which of the two happened and is shown the main menu. This is
    the outcome of [handleUpdate] whenever it offers a text to that
    stage. *)
Theorem edit_value_ends_session_either_way
    (w : World) (s : gmap Z UserState) (m : Message) (st : UserState) :
  Stage st = "edit_enter_value" ->
  let filter : Doc := {[ "title" := BString (Title st) ]} in
  let updateDoc : Doc :=
    {[ "$set" := BDoc {[ EditField st := BString (Text m) ]} ]} in
  let report :=
    match UpdateOne w filter updateDoc with
    | Failed => "Failed to update the song."
    | Ok _ => "Song updated successfully!"
    end in
  let out :=
    mkOutcome (delete (From_ID m) s)
      ([EUpdateOne filter updateDoc; ESend (Chat_ID m) report NoMarkup]
       ++ fst (sendMainMenu (Chat_ID m)))
      Returned in
  stageBranch w s m st = Some out
  /\ userStates out !! From_ID m = None
  /\ List.filter isCatalogWrite (trace out) = [EUpdateOne filter updateDoc]
  /\ (offeredToStage s m st -> handleUpdate w s (updateOf m) = out).
Proof.
  intros Hst. cbv zeta.
  split_and!.
  - by enter_stage Hst.
  - apply lookup_delete_eq.
  - reflexivity.
  - intros Hoff. rewrite (handleUpdate_offered _ _ _ _ Hoff).
    by enter_stage Hst.
Qed.

(** C3. At [awaiting_image], when a media call for the photo fails (file
    URL, download, or upload to the image host), the matching failure
    message is sent, nothing is written to the catalog, and the session
    table is returned unchanged. So whenever [handleUpdate] offers such a
    photo to that stage, the user is still at [awaiting_image] with the
    title, category and lyrics gathered so far. *)
Theorem media_failure_keeps_session
    (w : World) (s : gmap Z UserState) (m : Message) (st : UserState)
    (photos : list PhotoSize) (photo : PhotoSize) (failure : string) :
  Stage st = "awaiting_image" ->
  Photo m = Some photos ->
  last photos = Some photo ->
  mediaFails w photo failure ->
  exists tr,
    stageBranch w s m st = Some (mkOutcome s tr Returned)
    /\ ESend (Chat_ID m) failure NoMarkup ∈ tr
    /\ List.filter isCatalogWrite tr = []
    /\ (offeredToStage s m st ->
        handleUpdate w s (updateOf m) = mkOutcome s tr Returned
        /\ userStates (handleUpdate w s (updateOf m)) !! From_ID m = Some st).
Proof.
  intros Hst Hp Hlast Hfail.
  assert (exists tr, stageBranch w s m st = Some (mkOutcome s tr Returned)
                     /\ ESend (Chat_ID m) failure NoMarkup ∈ tr
                     /\ List.filter isCatalogWrite tr = [])
    as (tr & Hstage & Hsent & Hnone).
  { enter_stage Hst. rewrite Hp, Hlast.
    inversion Hfail as [Hu | fileURL Hu Hd | fileURL Hu Hd Hi]; subst failure;
      rewrite Hu; try rewrite Hd; try rewrite Hi;
      eexists; (split_and!; [reflexivity | set_solver | reflexivity]). }
  exists tr. split_and!; [done..|]. intros Hoff.
  rewrite (handleUpdate_offered _ _ _ _ Hoff), Hstage. split; [done|].
  apply Hoff.
Qed.

(** ** Handlers that write nothing to the catalog *)

Lemma readOnly_ret {A} (a : A) : readOnly (ret a).
Proof. reflexivity. Qed.

Lemma readOnly_panic {A} : readOnly (@panic A).
Proof. reflexivity. Qed.

Lemma readOnly_emit (e : Effect) : isCatalogWrite e = false -> readOnly (emit e).
Proof. unfold readOnly; simpl. by intros ->. Qed.

Lemma readOnly_bind {A B} (h : M A) (k : A -> M B) :
  readOnly h -> (forall a, readOnly (k a)) -> readOnly (bind h k).
Proof.
  unfold readOnly, bind. intros Hh Hk. destruct h as [tr [a|]]; simpl in *.
  - specialize (Hk a). destruct (k a) as [tr' r]; simpl in *.
    by rewrite List.filter_app, Hh, Hk.
  - done.
Qed.

Lemma readOnly_collectTitles (c : Cursor) (songs : list string) :
  readOnly (collectTitles c songs).
Proof.
  revert songs. induction c as [|[result|] rest IH]; intros songs; simpl.
  - apply readOnly_ret.
  - destruct (asString _); [apply IH | apply readOnly_panic].
  - apply readOnly_ret.
Qed.

Create HintDb readonly.

#[local] Hint Resolve readOnly_ret readOnly_panic readOnly_collectTitles
  : readonly.
#[local] Hint Extern 1 (readOnly (emit _)) =>
  (apply readOnly_emit; reflexivity) : readonly.
#[local] Hint Extern 1 (readOnly (send _ _)) =>
  (apply readOnly_emit; reflexivity) : readonly.
#[local] Hint Extern 1 (readOnly (sendWith _ _ _)) =>
  (apply readOnly_emit; reflexivity) : readonly.
#[local] Hint Extern 2 (readOnly (bind _ _)) =>
  (apply readOnly_bind; [| intros ?]) : readonly.
#[local] Hint Extern 3 (readOnly (match ?x with _ => _ end)) =>
  destruct x : readonly.

Ltac read_only := auto 30 with readonly.

Lemma readOnly_sendMainMenu (chatID : Z) : readOnly (sendMainMenu chatID).
Proof. reflexivity. Qed.

Lemma readOnly_helpCommand (m : Message) : readOnly (helpCommand m).
Proof. reflexivity. Qed.

Lemma readOnly_lyricsCommand (w : World) (m : Message) :
  readOnly (lyricsCommand w m).
Proof. unfold lyricsCommand, getLyricsFromDB. read_only. Qed.

Lemma readOnly_uploadImageCommand (w : World) (m : Message) :
  readOnly (uploadImageCommand w m).
Proof. unfold uploadImageCommand. read_only. Qed.

Lemma readOnly_defaultMessage (w : World) (m : Message) :
  readOnly (defaultMessage w m).
Proof. unfold defaultMessage, getSuggestions. read_only. Qed.

Lemma readOnly_handleAlphabetSelection (w : World) (m : Message) :
  readOnly (handleAlphabetSelection w m).
Proof. unfold handleAlphabetSelection. read_only. Qed.

Lemma readOnly_showSongsByCategory (w : World) (m : Message) (category : string) :
  readOnly (showSongsByCategory w m category).
Proof. unfold showSongsByCategory. read_only. Qed.

Lemma readOnly_getRandomSong (w : World) (m : Message) :
  readOnly (getRandomSong w m).
Proof. unfold getRandomSong. read_only. Qed.

(** Close a goal that asks for no catalog write in the trace of one of the
    handlers above. *)
Ltac stateless_read_only :=
  first [ apply readOnly_sendMainMenu | apply readOnly_helpCommand
        | apply readOnly_lyricsCommand | apply readOnly_uploadImageCommand
        | apply readOnly_defaultMessage | apply readOnly_handleAlphabetSelection
        | apply readOnly_showSongsByCategory | apply readOnly_getRandomSong ].

(** ** Cancellation and privilege *)

(** C4. Whatever the stage of the session a user holds, the [/cancel]
    command deletes it. Free text that the same user sends afterwards,
    also after other users have been served in between, finds no session
    and is handled by [handleAlphabetSelection], the handler of a user
    with no dialog. *)
Theorem cancel_command_returns_to_idle
    (w : World) (s : gmap Z UserState) (m : Message) (st : UserState) :
  s !! From_ID m = Some st ->
  IsCommand m = true ->
  Command m = "cancel" ->
  let out := handleUpdate w s (updateOf m) in
  out = mkOutcome (delete (From_ID m) s)
          [ESend (Chat_ID m) "Song addition cancelled." NoMarkup] Returned
  /\ forall (others : list (World * Update)) (w' : World) (m' : Message),
       fromOthers (From_ID m) others ->
       freeText (From_ID m) m' ->
       let s' := userStates (run (userStates out) others) in
       s' !! From_ID m = None
       /\ handleUpdate w' s' (updateOf m') =
            stateless s' (handleAlphabetSelection w' m').
Proof.
  intros Hs Hc Hcmd. cbv zeta.
  assert (handleUpdate w s (updateOf m) =
          mkOutcome (delete (From_ID m) s)
            [ESend (Chat_ID m) "Song addition cancelled." NoMarkup] Returned)
    as ->.
  { unfold handleUpdate, updateOf; simpl. rewrite Hc.
    unfold commandBranch; cbv zeta. rewrite Hcmd. literal_eqb. by rewrite Hs. }
  split; [done|]. intros others w' m' Hothers (Hfrom & Hc' & Hl'). simpl.
  assert (userStates (run (delete (From_ID m) s) others) !! From_ID m = None)
    as Hgone.
  { rewrite run_frame by done. apply lookup_delete_eq. }
  split; [done|].
  apply handleUpdate_idle; [done | done |]. right. by rewrite Hfrom.
Qed.

(** What [/cancel] does is not gated: it deletes the sender's session with
    no look at [isAdmin]. *)
Lemma cancel_command_is_not_gated
    (w : World) (s : gmap Z UserState) (m : Message) :
  IsCommand m = true -> Command m = "cancel" ->
  userStates (handleUpdate w s (updateOf m)) = delete (From_ID m) s.
Proof.
  intros Hc Hcmd. unfold handleUpdate, updateOf; simpl. rewrite Hc.
  unfold commandBranch; cbv zeta. rewrite Hcmd. literal_eqb.
  destruct (s !! From_ID m) eqn:Hs; simpl; [done|].
  by rewrite delete_id.
Qed.

(** C5. Privilege is derived from [isAdmin] when the event arrives, never
    from the session. An event of a sender outside [adminIDs] that could
    take a gated transition (every event but the ungated [/cancel]) is
    handled exactly as if the sender held no session: same calls, same
    exit, the session table returned as it was, and no write to the
    catalog. The session the sender may hold, whatever its stage and its
    [IsEditing] flag, is not consulted. *)
Theorem unprivileged_sender_bypasses_state_machine
    (w : World) (s : gmap Z UserState) (m : Message) :
  isAdmin (From_ID m) = false ->
  IsCommand m = false \/ Command m <> "cancel" ->
  let out := handleUpdate w s (updateOf m) in
  let idle := handleUpdate w (delete (From_ID m) s) (updateOf m) in
  userStates out = s
  /\ trace out = trace idle
  /\ exit out = exit idle
  /\ List.filter isCatalogWrite (trace out) = [].
Proof.
  intros Ha Hev. cbv zeta. unfold handleUpdate, updateOf; simpl.
  destruct (IsCommand m) eqn:Hc.
  - assert (String.eqb (Command m) "cancel" = false) as Hcancel.
    { apply String.eqb_neq. by destruct Hev. }
    unfold commandBranch; cbv zeta. rewrite Ha, Hcancel.
    repeat case_match; simpl; split_and!; try done; stateless_read_only.
  - rewrite Ha. unfold buttonBranch; cbv zeta. rewrite Ha.
    repeat case_match; simplify_eq; simpl; split_and!; try done;
      stateless_read_only.
Qed.

(** ** The steps of the Add and Edit flows *)

Lemma run_cons_returned (w : World) (s s' : gmap Z UserState) (update : Update)
    (tr : list Effect) (rest : list (World * Update)) :
  handleUpdate w s update = mkOutcome s' tr Returned ->
  run s ((w, update) :: rest) =
    mkOutcome (userStates (run s' rest)) (tr ++ trace (run s' rest))
      (exit (run s' rest)).
Proof. intros H. simpl. by rewrite H. Qed.

Lemma add_button_opens_session (w : World) (s : gmap Z UserState) (m : Message) :
  isAdmin (From_ID m) = true -> IsCommand m = false -> Text m = "➕ Add Song" ->
  handleUpdate w s (updateOf m) =
    mkOutcome (<[From_ID m := mkUserState "awaiting_title" "" "" "" false ""]> s)
      [ESend (Chat_ID m)
         ("Please enter the song title:" +:+ LF +:+ "(or type /cancel to abort)")
         NoMarkup]
      Returned.
Proof.
  intros Ha Hc Ht. unfold handleUpdate, updateOf; simpl. rewrite Hc.
  unfold buttonBranch; cbv zeta. rewrite Ht. literal_eqb. by rewrite Ha.
Qed.

Lemma edit_button_opens_session (w : World) (s : gmap Z UserState) (m : Message) :
  isAdmin (From_ID m) = true -> IsCommand m = false -> Text m = "✏️ Edit Song" ->
  handleUpdate w s (updateOf m) =
    mkOutcome (<[From_ID m := mkUserState "edit_select_song" "" "" "" true ""]> s)
      [ESend (Chat_ID m)
         "Please enter the title of the song you want to edit:" NoMarkup]
      Returned.
Proof.
  intros Ha Hc Ht. unfold handleUpdate, updateOf; simpl. rewrite Hc.
  unfold buttonBranch; cbv zeta. rewrite Ht. literal_eqb. by rewrite Ha.
Qed.

Lemma title_step (w : World) (s : gmap Z UserState) (m : Message) (st : UserState) :
  isAdmin (From_ID m) = true -> s !! From_ID m = Some st ->
  Stage st = "awaiting_title" -> freeText (From_ID m) m ->
  handleUpdate w s (updateOf m) =
    mkOutcome
      (<[From_ID m := mkUserState "awaiting_category" (Text m) "" "" false ""]> s)
      [ESend (Chat_ID m) "Please select the song category:" categoryKeyboard]
      Returned.
Proof.
  intros Ha Hs Hst (_ & Hc & Hl).
  rewrite (handleUpdate_staged _ _ _ _ Hc Hl Ha Hs). by enter_stage Hst.
Qed.

Lemma category_step (w : World) (s : gmap Z UserState) (m : Message)
    (st : UserState) :
  isAdmin (From_ID m) = true -> s !! From_ID m = Some st ->
  Stage st = "awaiting_category" -> IsCommand m = false ->
  Text m = "Choir" \/ Text m = "Non-Choir" ->
  handleUpdate w s (updateOf m) =
    mkOutcome
      (<[From_ID m := mkUserState "awaiting_lyrics" (Title st) "" (Text m)
                        false ""]> s)
      [ESend (Chat_ID m) "Great! Now please enter the lyrics:" (RemoveKeyboard true)]
      Returned.
Proof.
  intros Ha Hs Hst Hc Ht.
  assert (isMenuLabel (Text m) = false) as Hl by (by destruct Ht as [-> | ->]).
  rewrite (handleUpdate_staged _ _ _ _ Hc Hl Ha Hs). enter_stage Hst.
  by destruct Ht as [-> | ->].
Qed.

Lemma lyrics_step (w : World) (s : gmap Z UserState) (m : Message) (st : UserState) :
  isAdmin (From_ID m) = true -> s !! From_ID m = Some st ->
  Stage st = "awaiting_lyrics" -> freeText (From_ID m) m ->
  handleUpdate w s (updateOf m) =
    mkOutcome
      (<[From_ID m := mkUserState "awaiting_image" (Title st) (Text m)
                        (Category st) false ""]> s)
      [ESend (Chat_ID m)
         "Perfect! Now please send the image URL or upload an image:" NoMarkup]
      Returned.
Proof.
  intros Ha Hs Hst (_ & Hc & Hl).
  rewrite (handleUpdate_staged _ _ _ _ Hc Hl Ha Hs). by enter_stage Hst.
Qed.

(** With an image that resolves, the [awaiting_image] step is the insert
    framed by the media calls, none of which writes to the catalog. *)
Lemma image_step (w : World) (s : gmap Z UserState) (m : Message) (st : UserState)
    (imageURL : string) :
  isAdmin (From_ID m) = true -> s !! From_ID m = Some st ->
  Stage st = "awaiting_image" -> freeText (From_ID m) m ->
  resolveImage w m = Some imageURL ->
  exists before after,
    handleUpdate w s (updateOf m) = insertSong w s m st imageURL before after
    /\ List.filter isCatalogWrite before = []
    /\ List.filter isCatalogWrite after = [].
Proof.
  intros Ha Hs Hst (_ & Hc & Hl) Hr.
  rewrite (handleUpdate_staged _ _ _ _ Hc Hl Ha Hs). enter_stage Hst.
  unfold resolveImage in Hr. repeat case_match; simplify_eq; eauto.
Qed.

Lemma song_lookup_step (w : World) (s : gmap Z UserState) (m : Message)
    (st : UserState) (found : Doc) :
  isAdmin (From_ID m) = true -> s !! From_ID m = Some st ->
  Stage st = "edit_select_song" -> freeText (From_ID m) m ->
  FindOne w {[ "title" := BString (Text m) ]} = Ok found ->
  handleUpdate w s (updateOf m) =
    mkOutcome
      (<[From_ID m := mkUserState "edit_select_field" (Text m) "" "" true ""]> s)
      [EFindOne {[ "title" := BString (Text m) ]};
       ESend (Chat_ID m) "What would you like to edit?" editKeyboard]
      Returned.
Proof.
  intros Ha Hs Hst (_ & Hc & Hl) Hfound.
  rewrite (handleUpdate_staged _ _ _ _ Hc Hl Ha Hs). enter_stage Hst.
  by rewrite Hfound.
Qed.

Lemma field_step (w : World) (s : gmap Z UserState) (m : Message) (st : UserState)
    (field : string) :
  isAdmin (From_ID m) = true -> s !! From_ID m = Some st ->
  Stage st = "edit_select_field" -> IsCommand m = false ->
  (Text m, field) ∈ editFields ->
  handleUpdate w s (updateOf m) =
    mkOutcome
      (<[From_ID m := mkUserState "edit_enter_value" (Title st) "" "" true field]> s)
      [ESend (Chat_ID m) ("Please enter the new " +:+ field +:+ ":")
         (RemoveKeyboard true)]
      Returned.
Proof.
  intros Ha Hs Hst Hc Hin.
  assert (isMenuLabel (Text m) = false /\
          stageBranch w s m st = Some (mkOutcome
            (<[From_ID m := mkUserState "edit_enter_value" (Title st) "" ""
                              true field]> s)
            [ESend (Chat_ID m) ("Please enter the new " +:+ field +:+ ":")
               (RemoveKeyboard true)]
            Returned)) as [Hl Hstage].
  { enter_stage Hst. unfold editFields in Hin. set_unfold.
    destruct Hin as [?|[?|[?|[?|[]]]]]; simplify_eq;
      match goal with H : Text m = _ |- _ => rewrite H end;
      split; reflexivity. }
  by rewrite (handleUpdate_staged _ _ _ _ Hc Hl Ha Hs), Hstage.
Qed.

Lemma value_step (w : World) (s : gmap Z UserState) (m : Message) (st : UserState) :
  isAdmin (From_ID m) = true -> s !! From_ID m = Some st ->
  Stage st = "edit_enter_value" -> freeText (From_ID m) m ->
  handleUpdate w s (updateOf m) =
    mkOutcome (delete (From_ID m) s)
      ([EUpdateOne {[ "title" := BString (Title st) ]}
          {[ "$set" := BDoc {[ EditField st := BString (Text m) ]} ]};
        ESend (Chat_ID m)
          match UpdateOne w {[ "title" := BString (Title st) ]}
                  {[ "$set" := BDoc {[ EditField st := BString (Text m) ]} ]} with
          | Failed => "Failed to update the song."
          | Ok _ => "Song updated successfully!"
          end NoMarkup]
       ++ fst (sendMainMenu (Chat_ID m)))
      Returned.
Proof.
  intros Ha Hs Hst (_ & Hc & Hl).
  rewrite (handleUpdate_staged _ _ _ _ Hc Hl Ha Hs). by enter_stage Hst.
Qed.

Lemma no_write_no_insert (tr : list Effect) :
  List.filter isCatalogWrite tr = [] -> List.filter isInsertOne tr = [].
Proof.
  induction tr as [|e tr IH]; simpl; [done|].
  unfold isCatalogWrite at 1. destruct (isInsertOne e); simpl; [done|].
  destruct (isUpdateOne e); [done | exact IH].
Qed.

Lemma no_write_no_update (tr : list Effect) :
  List.filter isCatalogWrite tr = [] -> List.filter isUpdateOne tr = [].
Proof.
  induction tr as [|e tr IH]; simpl; [done|].
  unfold isCatalogWrite at 1. destruct (isInsertOne e); simpl; [done|].
  destruct (isUpdateOne e); [done | exact IH].
Qed.

(** ** Whole dialogs *)

(** C1. An administrator presses "➕ Add Song", then supplies a title, a
    valid category, the lyrics and an image that resolves (a photo that
    passes the three media calls, or a text taken as the URL), each offered
    to the stage of the session. The run issues exactly one insert, which
    carries the four values gathered, and leaves no session for that
    user. *)
Theorem add_flow_inserts_once
    (s : gmap Z UserState) (u : Z) (w0 w1 w2 w3 w4 : World)
    (m0 m1 m2 m3 m4 : Message) (imageURL : string) :
  isAdmin u = true ->
  From_ID m0 = u -> IsCommand m0 = false -> Text m0 = "➕ Add Song" ->
  freeText u m1 ->
  From_ID m2 = u -> IsCommand m2 = false ->
  Text m2 = "Choir" \/ Text m2 = "Non-Choir" ->
  freeText u m3 ->
  freeText u m4 -> resolveImage w4 m4 = Some imageURL ->
  let out :=
    run s [ (w0, updateOf m0); (w1, updateOf m1); (w2, updateOf m2);
            (w3, updateOf m3); (w4, updateOf m4) ] in
  let song : Doc :=
    {[ "title" := BString (Text m1);
       "lyrics" := BString (Text m3);
       "image" := BString imageURL;
       "category" := BString (Text m2) ]} in
  List.filter isInsertOne (trace out) = [EInsertOne song]
  /\ userStates out !! u = None
  /\ userStates out = delete u s
  /\ exit out = Returned.
Proof.
  intros Ha H0 Hc0 Ht0 F1 H2 Hc2 Ht2 F3 F4 Hr. cbv zeta.
  pose proof F1 as (H1 & _). pose proof F3 as (H3 & _).
  pose proof F4 as (H4 & _). subst u.
  rewrite <- H1 in F1. rewrite <- H3 in F3. rewrite <- H4 in F4.
  erewrite run_cons_returned by (apply add_button_opens_session; congruence).
  erewrite run_cons_returned.
  2:{ eapply title_step;
        [congruence | rewrite H1; apply lookup_insert_eq | reflexivity | done]. }
  erewrite run_cons_returned.
  2:{ eapply category_step;
        [congruence | rewrite H2, <- H1 at 1; apply lookup_insert_eq
        | reflexivity | done | done]. }
  erewrite run_cons_returned.
  2:{ eapply lyrics_step;
        [congruence | rewrite H3, <- H2 at 1; apply lookup_insert_eq
        | reflexivity | done]. }
  match goal with
  | |- context [run ?s4 [(w4, updateOf m4)]] =>
      destruct (image_step w4 s4 m4
                  (mkUserState "awaiting_image" (Text m1) (Text m3) (Text m2)
                     false "") imageURL)
        as (before & after & Hstep & Hb & Hafter);
        [congruence | rewrite H4, <- H3 at 1; apply lookup_insert_eq
        | reflexivity | exact F4 | exact Hr |]
  end.
  erewrite run_cons_returned by (rewrite Hstep; reflexivity).
  simpl. rewrite app_nil_r.
  rewrite List.filter_app, (no_write_no_insert _ Hb). simpl.
  rewrite (no_write_no_insert _ Hafter).
  rewrite H1, H2, H3, H4.
  rewrite !delete_insert_eq, lookup_delete_eq. done.
Qed.

(** C6. An administrator presses "✏️ Edit Song", names a song the catalog
    finds, picks one of the four field labels and enters a new value. The
    run issues exactly one catalog write: an update whose [$set] holds the
    picked field alone, with the new value, and whose filter is the title
    typed at [edit_select_song]. This also holds when the picked field is
    the title: the filter is still the title from before the edit. *)
Theorem edit_flow_updates_picked_field_by_captured_title
    (s : gmap Z UserState) (u : Z) (w0 w1 w2 w3 : World)
    (m0 m1 m2 m3 : Message) (found : Doc) (field : string) :
  isAdmin u = true ->
  From_ID m0 = u -> IsCommand m0 = false -> Text m0 = "✏️ Edit Song" ->
  freeText u m1 ->
  FindOne w1 {[ "title" := BString (Text m1) ]} = Ok found ->
  From_ID m2 = u -> IsCommand m2 = false -> (Text m2, field) ∈ editFields ->
  freeText u m3 ->
  let out :=
    run s [ (w0, updateOf m0); (w1, updateOf m1); (w2, updateOf m2);
            (w3, updateOf m3) ] in
  List.filter isCatalogWrite (trace out) =
    [EUpdateOne {[ "title" := BString (Text m1) ]}
       {[ "$set" := BDoc {[ field := BString (Text m3) ]} ]}]
  /\ userStates out = delete u s
  /\ exit out = Returned.
Proof.
  intros Ha H0 Hc0 Ht0 F1 Hfound H2 Hc2 Ht2 F3. cbv zeta.
  pose proof F1 as (H1 & _). pose proof F3 as (H3 & _). subst u.
  rewrite <- H1 in F1. rewrite <- H3 in F3.
  erewrite run_cons_returned by (apply edit_button_opens_session; congruence).
  erewrite run_cons_returned.
  2:{ eapply song_lookup_step;
        [congruence | rewrite H1; apply lookup_insert_eq | reflexivity
        | done | exact Hfound]. }
  erewrite run_cons_returned.
  2:{ eapply field_step;
        [congruence | rewrite H2, <- H1 at 1; apply lookup_insert_eq
        | reflexivity | done | exact Ht2]. }
  erewrite run_cons_returned.
  2:{ eapply value_step;
        [congruence | rewrite H3, <- H2 at 1; apply lookup_insert_eq
        | reflexivity | done]. }
  simpl. rewrite H1, H2, H3, !delete_insert_eq. done.
Qed.

(** ** Order of dispatch *)

(** What a menu label triggers does not depend on the session table. *)
Lemma buttonBranch_session_blind (w : World) (s s' : gmap Z UserState)
    (m : Message) (out : Outcome) :
  buttonBranch w s m = Some out ->
  exists out', buttonBranch w s' m = Some out'
               /\ trace out' = trace out /\ exit out' = exit out.
Proof.
  unfold buttonBranch; cbv zeta. intros H.
  repeat case_match; simplify_eq; eauto.
Qed.

Lemma isMenuLabel_elem (text : string) :
  isMenuLabel text = true <-> text ∈ menuLabels.
Proof.
  unfold isMenuLabel. rewrite existsb_exists. split.
  - intros (label & Hin & Heq). apply String.eqb_eq in Heq as ->.
    by apply list_elem_of_In.
  - intros Hin. exists text. split; [by apply list_elem_of_In|].
    apply String.eqb_refl.
Qed.

Lemma not_menuLabel (text : string) :
  text ∉ menuLabels -> isMenuLabel text = false.
Proof.
  intros Hout. apply not_true_iff_false. intros Hin.
  by apply Hout, isMenuLabel_elem.
Qed.

(** C2, amended. [handleUpdate] checks for a command first, then compares
    the text with the nine labels named by the cases of its text switch
    ([menuLabels]), then offers the text to the stage of the session an
    administrator holds, and otherwise falls back to the alphabet handler.
    The cases of the switch take exactly the texts equal to one of the
    nine labels; such a text is handled by its case, with the same calls
    whatever sessions exist, and never reaches the stage. "Cancel" is not
    among the nine: typed in a dialog it is offered to the stage, where at
    [awaiting_title] it is stored as the title and at [edit_select_field]
    it cancels the edit. *)
Theorem dispatch_order (w : World) (s : gmap Z UserState) (m : Message) :
  (IsCommand m = true -> handleUpdate w s (updateOf m) = commandBranch w s m)
  /\ (is_Some (buttonBranch w s m) <-> Text m ∈ menuLabels)
  /\ (IsCommand m = false -> Text m ∈ menuLabels ->
      exists out,
        buttonBranch w s m = Some out
        /\ handleUpdate w s (updateOf m) = out
        /\ forall s', exists out',
             handleUpdate w s' (updateOf m) = out'
             /\ trace out' = trace out /\ exit out' = exit out)
  /\ (IsCommand m = false -> Text m ∉ menuLabels ->
      forall st out,
        isAdmin (From_ID m) = true -> s !! From_ID m = Some st ->
        stageBranch w s m st = Some out ->
        handleUpdate w s (updateOf m) = out)
  /\ (IsCommand m = false -> Text m ∉ menuLabels ->
      (isAdmin (From_ID m) = false \/ s !! From_ID m = None
       \/ exists st, s !! From_ID m = Some st /\ stageBranch w s m st = None) ->
      handleUpdate w s (updateOf m) = stateless s (handleAlphabetSelection w m))
  /\ ("Cancel" ∉ menuLabels)
  /\ (IsCommand m = false -> Text m = "Cancel" ->
      forall st,
        isAdmin (From_ID m) = true -> s !! From_ID m = Some st ->
        (Stage st = "awaiting_title" ->
         handleUpdate w s (updateOf m) =
           mkOutcome
             (<[From_ID m := mkUserState "awaiting_category" "Cancel" "" ""
                               false ""]> s)
             [ESend (Chat_ID m) "Please select the song category:"
                categoryKeyboard]
             Returned)
        /\ (Stage st = "edit_select_field" ->
            handleUpdate w s (updateOf m) =
              mkOutcome (delete (From_ID m) s)
                (ESend (Chat_ID m) "Edit cancelled." (RemoveKeyboard true)
                 :: fst (sendMainMenu (Chat_ID m)))
                Returned)).
Proof.
  assert ("Cancel" ∉ menuLabels) as Hcancel.
  { intros Hin. apply isMenuLabel_elem in Hin. discriminate Hin. }
  split_and!.
  - intros Hc. unfold handleUpdate, updateOf; simpl. by rewrite Hc.
  - split.
    + intros Hsome. apply isMenuLabel_elem.
      destruct (isMenuLabel (Text m)) eqn:Hl; [done|].
      rewrite (buttonBranch_free w s m Hl) in Hsome. by destruct Hsome.
    + intros Hin. by apply buttonBranch_label, isMenuLabel_elem.
  - intros Hc Hin. apply isMenuLabel_elem in Hin as Hl.
    destruct (buttonBranch_label w s m Hl) as [out Hout].
    exists out. split_and!; [done | |].
    + unfold handleUpdate, updateOf; simpl. by rewrite Hc, Hout.
    + intros s'.
      destruct (buttonBranch_session_blind w s s' m out Hout)
        as (out' & Hout' & Htr & Hex).
      exists out'. split_and!; [|done|done].
      unfold handleUpdate, updateOf; simpl. by rewrite Hc, Hout'.
  - intros Hc Hout st out Ha Hs Hst. apply not_menuLabel in Hout.
    by rewrite (handleUpdate_staged _ _ _ _ Hc Hout Ha Hs), Hst.
  - intros Hc Hout Hidle. apply not_menuLabel in Hout.
    destruct Hidle as [Ha | [Hs | (st & Hs & Hst)]].
    + apply handleUpdate_idle; auto.
    + apply handleUpdate_idle; auto.
    + destruct (isAdmin (From_ID m)) eqn:Ha.
      * by rewrite (handleUpdate_staged _ _ _ _ Hc Hout Ha Hs), Hst.
      * apply handleUpdate_idle; auto.
  - exact Hcancel.
  - intros Hc Ht st Ha Hs.
    assert (isMenuLabel (Text m) = false) as Hl by (by rewrite Ht).
    rewrite (handleUpdate_staged _ _ _ _ Hc Hl Ha Hs).
    split; intros Hst; enter_stage Hst; rewrite Ht; by literal_eqb.
Qed.

(** ** Sessions of different users *)

(** One update reads no session but the sender's. *)
Lemma stageBranch_reads_sender_only (w : World) (s1 s2 : gmap Z UserState)
    (m : Message) (st : UserState) :
  s1 !! From_ID m = s2 !! From_ID m ->
  match stageBranch w s1 m st, stageBranch w s2 m st with
  | Some o1, Some o2 =>
      trace o1 = trace o2 /\ exit o1 = exit o2
      /\ userStates o1 !! From_ID m = userStates o2 !! From_ID m
  | None, None => True
  | _, _ => False
  end.
Proof.
  intros Heq. unfold stageBranch, insertSong; cbv zeta.
  repeat (case_match; simplify_eq; simpl; try done);
    rewrite ?lookup_insert_eq, ?lookup_delete_eq; done.
Qed.

Lemma handleUpdate_reads_sender_only (w : World) (s1 s2 : gmap Z UserState)
    (m : Message) :
  s1 !! From_ID m = s2 !! From_ID m ->
  trace (handleUpdate w s1 (updateOf m)) = trace (handleUpdate w s2 (updateOf m))
  /\ exit (handleUpdate w s1 (updateOf m)) = exit (handleUpdate w s2 (updateOf m))
  /\ userStates (handleUpdate w s1 (updateOf m)) !! From_ID m =
     userStates (handleUpdate w s2 (updateOf m)) !! From_ID m.
Proof.
  intros Heq. unfold handleUpdate, updateOf; simpl.
  destruct (IsCommand m).
  - unfold commandBranch, stateless; cbv zeta. rewrite <- Heq.
    repeat case_match; simpl; rewrite ?lookup_delete_eq; try done;
      split_and!; congruence.
  - rewrite <- Heq.
    assert (match buttonBranch w s1 m, buttonBranch w s2 m with
            | Some o1, Some o2 =>
                trace o1 = trace o2 /\ exit o1 = exit o2
                /\ userStates o1 !! From_ID m = userStates o2 !! From_ID m
            | None, None => True
            | _, _ => False
            end) as Hbutton.
    { unfold buttonBranch, stateless; cbv zeta.
      repeat (case_match; simplify_eq; simpl; try done);
        rewrite ?lookup_insert_eq; done. }
    destruct (buttonBranch w s1 m), (buttonBranch w s2 m); try done.
    destruct (isAdmin (From_ID m)); [|done].
    destruct (s1 !! From_ID m) as [st|] eqn:Hs;
      [|simpl; split_and!; congruence].
    pose proof (stageBranch_reads_sender_only w s1 s2 m st) as Hstage.
    rewrite Hs, <- Heq in Hstage. specialize (Hstage eq_refl).
    destruct (stageBranch w s1 m st), (stageBranch w s2 m st); try done.
    simpl. by rewrite Hs, <- Heq.
Qed.

(** Agreement of two tables on a set of users that contains the senders
    is kept by a run, along with its calls and its exit. *)
Lemma run_agree (P : Z -> Prop) (s1 s2 : gmap Z UserState)
    (updates : list (World * Update)) :
  (forall u, sends updates u -> P u) ->
  (forall u, P u -> s1 !! u = s2 !! u) ->
  trace (run s1 updates) = trace (run s2 updates)
  /\ exit (run s1 updates) = exit (run s2 updates)
  /\ forall u, P u ->
       userStates (run s1 updates) !! u = userStates (run s2 updates) !! u.
Proof.
  revert s1 s2. induction updates as [|[w update] rest IH];
    intros s1 s2 Hsenders Hagree; [done|].
  assert (forall u, sends rest u -> P u) as Hrest.
  { intros u Hu. apply Hsenders. by apply Exists_cons_tl. }
  destruct update as [[m|]].
  - fold (updateOf m) in *.
    destruct (handleUpdate_reads_sender_only w s1 s2 m) as (Htr & Hex & Hu).
    { apply Hagree, Hsenders, Exists_cons_hd. by exists m. }
    assert (forall u, P u ->
              userStates (handleUpdate w s1 (updateOf m)) !! u =
              userStates (handleUpdate w s2 (updateOf m)) !! u) as Hnext.
    { intros u HP. destruct (decide (u = From_ID m)) as [->|Hne]; [done|].
      rewrite !handleUpdate_frame; [by apply Hagree | |];
        intros m' [= <-]; congruence. }
    simpl. rewrite <- Hex.
    destruct (exit (handleUpdate w s1 (updateOf m))) eqn:Hex1;
      [|split_and!; auto; congruence].
    destruct (IH _ _ Hrest Hnext) as (IHtr & IHex & IHu).
    simpl. by rewrite Htr, IHtr, IHex.
  - simpl. destruct (IH _ _ Hrest Hagree) as (IHtr & IHex & IHu).
    by rewrite IHtr, IHex.
Qed.

(** X1. A run reads no sessions but those of the users who send its
    updates: started from two session tables that agree on every sender,
    it makes the same calls, ends the same way, and leaves tables that
    still agree on every sender. *)
Theorem run_reads_senders_sessions_only
    (s1 s2 : gmap Z UserState) (updates : list (World * Update)) :
  (forall u, sends updates u -> s1 !! u = s2 !! u) ->
  trace (run s1 updates) = trace (run s2 updates)
  /\ exit (run s1 updates) = exit (run s2 updates)
  /\ forall u, sends updates u ->
       userStates (run s1 updates) !! u = userStates (run s2 updates) !! u.
Proof. intros Hagree. by apply run_agree. Qed.

(** X2. A run leaves the session of every user who sends none of its
    updates exactly as it was, present or absent. *)
Theorem run_keeps_sessions_of_silent_users
    (s : gmap Z UserState) (updates : list (World * Update)) (u : Z) :
  ~ sends updates u ->
  userStates (run s updates) !! u = s !! u.
Proof.
  intros Hsilent. apply run_frame. apply Forall_forall.
  intros [w update] Hel m Hm Heq. apply Hsilent, Exists_exists.
  exists (w, update). eauto.
Qed.

(** ** The shape of the sessions *)

Lemma handleUpdate_some (w : World) (s : gmap Z UserState) (update : Update) :
  match Msg update with
  | None => handleUpdate w s update = mkOutcome s [] Returned
  | Some m => handleUpdate w s update = handleUpdate w s (updateOf m)
  end.
Proof. by destruct update as [[m|]]. Qed.

Lemma stageBranch_wellFormed (w : World) (s : gmap Z UserState) (m : Message)
    (st : UserState) (out : Outcome) :
  wellFormedTable s -> isAdmin (From_ID m) = true -> wellFormed st = true ->
  stageBranch w s m st = Some out -> wellFormedTable (userStates out).
Proof.
  intros Hs Ha Hst. unfold stageBranch, insertSong; cbv zeta.
  unfold wellFormed in Hst; cbv zeta in Hst.
  repeat match goal with
  | |- context [String.eqb (Stage st) ?l] =>
      destruct (String.eqb (Stage st) l) eqn:?
  end; try done;
  repeat case_match; intros; simplify_eq; simpl;
    try done; try (by apply map_Forall_delete);
    apply map_Forall_insert_2; try done; split; try done;
    unfold wellFormed; simpl.
  all: repeat match goal with
       | H : _ && _ = true |- _ => apply andb_prop in H as [? ?]
       | H : negb _ = true |- _ => apply negb_true_iff in H
       | H : _ || _ = true |- _ => apply orb_prop in H
       | H : negb _ && negb _ = false |- _ =>
           apply andb_false_iff in H; rewrite !negb_false_iff in H
       end.
  all: repeat match goal with
       | H : String.eqb "" _ = true |- _ => apply String.eqb_eq in H; rewrite <- H
       end.
  all: try reflexivity.
  - match goal with H : _ \/ _ |- _ =>
      unfold isCategory; destruct H as [-> | ->]; by rewrite ?orb_true_r end.
  - match goal with H : isCategory _ = true |- _ => by rewrite H end.
  - repeat match goal with
    | H : _ \/ _ |- _ => destruct H as [H|H]
    | H : _ || _ = true |- _ => apply orb_prop in H
    end;
    match goal with
    | H : String.eqb (Text m) _ = true, E : GoStrings.Split _ _ !! _ = _ |- _ =>
        apply String.eqb_eq in H; rewrite H in E; vm_compute in E;
        by simplify_eq
    end.
Qed.

Lemma handleUpdate_wellFormed (w : World) (s : gmap Z UserState)
    (update : Update) :
  wellFormedTable s -> wellFormedTable (userStates (handleUpdate w s update)).
Proof.
  intros Hs. unfold handleUpdate.
  destruct (Msg update) as [m|]; [|done].
  destruct (IsCommand m).
  - unfold commandBranch, stateless; cbv zeta.
    repeat case_match; simpl; try done. by apply map_Forall_delete.
  - destruct (buttonBranch w s m) as [out|] eqn:Hb.
    + revert Hb. unfold buttonBranch, stateless; cbv zeta.
      repeat case_match; intros; simplify_eq; simpl; try done;
        by apply map_Forall_insert_2.
    + destruct (isAdmin (From_ID m)) eqn:Ha; [|done].
      destruct (s !! From_ID m) as [st|] eqn:Hst; [|done].
      destruct (stageBranch w s m st) as [out|] eqn:Hstage; [|done].
      eapply stageBranch_wellFormed; eauto. by apply (Hs _ _ Hst).
Qed.

(** X3. At every moment of a run every session in the table belongs to an
    administrator and has the shape of its stage: the fields not yet
    gathered are empty, a stored category is "Choir" or "Non-Choir",
    [IsEditing] is set exactly in the edit stages, and a stored
    [EditField] is one of title, lyrics, category and image. This holds
    from the empty table of a fresh process, and from any table that has
    the property. *)
Theorem run_keeps_sessions_well_formed
    (s : gmap Z UserState) (updates : list (World * Update)) :
  wellFormedTable s -> wellFormedTable (userStates (run s updates)).
Proof.
  revert s. induction updates as [|[w update] rest IH]; intros s Hs; [done|].
  simpl. pose proof (handleUpdate_wellFormed w s update Hs) as Hnext.
  destruct (exit (handleUpdate w s update)); simpl; auto.
Qed.

(** ** What is written to the catalog *)

Lemma readOnly_elem (tr : list Effect) (e : Effect) :
  List.filter isCatalogWrite tr = [] -> e ∈ tr -> isCatalogWrite e = false.
Proof.
  intros Hnone He. apply list_elem_of_In in He.
  destruct (isCatalogWrite e) eqn:Hw; [|done].
  assert (In e (List.filter isCatalogWrite tr)) as Hin
    by (apply List.filter_In; done).
  rewrite Hnone in Hin. destruct Hin.
Qed.

Lemma stageBranch_writes (w : World) (s : gmap Z UserState) (m : Message)
    (st : UserState) (out : Outcome) (e : Effect) :
  wellFormed st = true -> stageBranch w s m st = Some out ->
  e ∈ trace out -> isCatalogWrite e = true -> dialogWrite e.
Proof.
  intros Hst. unfold stageBranch, insertSong; cbv zeta.
  unfold wellFormed in Hst; cbv zeta in Hst.
  repeat match goal with
  | |- context [String.eqb (Stage st) ?l] =>
      destruct (String.eqb (Stage st) l) eqn:?
  end; try done;
  repeat case_match; intros; simplify_eq; simpl in *;
    set_unfold; destruct_or?; simplify_eq; try discriminate.
  all: repeat match goal with
       | H : _ && _ = true |- _ => apply andb_prop in H as [? ?]
       end.
  all: first [ left; do 4 eexists; split; [reflexivity | done]
             | right; do 3 eexists; split; [reflexivity | done] ].
Qed.

(** X4. Whatever a message that is not a command writes to the catalog,
    its sender is an administrator and the write is either an insert of
    title, lyrics, image and a category that is "Choir" or "Non-Choir", or
    an update of a single field among title, lyrics, category and image,
    filtered by title. The session table is assumed to have the shape
    that every run keeps. *)
Theorem dialog_writes_are_well_formed
    (w : World) (s : gmap Z UserState) (m : Message) (e : Effect) :
  wellFormedTable s ->
  IsCommand m = false ->
  e ∈ trace (handleUpdate w s (updateOf m)) ->
  isCatalogWrite e = true ->
  isAdmin (From_ID m) = true /\ dialogWrite e.
Proof.
  intros Hs Hc. unfold handleUpdate, updateOf; simpl. rewrite Hc.
  destruct (buttonBranch w s m) as [out|] eqn:Hb.
  - revert Hb. unfold buttonBranch, stateless; cbv zeta.
    repeat case_match; intros ? He Hw; simplify_eq; simpl in *;
      try (set_unfold; destruct_or?; simplify_eq; discriminate);
      exfalso; revert Hw; apply not_true_iff_false;
      (eapply readOnly_elem; [|exact He]); stateless_read_only.
  - destruct (isAdmin (From_ID m)) eqn:Ha.
    + destruct (s !! From_ID m) as [st|] eqn:Hst.
      * destruct (stageBranch w s m st) as [out|] eqn:Hstage.
        -- intros He Hw. split; [done|].
           eapply stageBranch_writes; eauto. by apply (Hs _ _ Hst).
        -- intros He Hw. exfalso. revert Hw. apply not_true_iff_false.
           eapply readOnly_elem; [|exact He]. stateless_read_only.
      * intros He Hw. exfalso. revert Hw. apply not_true_iff_false.
        eapply readOnly_elem; [|exact He]. stateless_read_only.
    + intros He Hw. exfalso. revert Hw. apply not_true_iff_false.
      eapply readOnly_elem; [|exact He]. stateless_read_only.
Qed.

(** X5. A sender outside [adminIDs] never causes a write to the catalog
    and never gains a session, whatever the message, commands included:
    the table is returned as it was, or without that sender's session. *)
Theorem no_write_and_no_session_without_privilege
    (w : World) (s : gmap Z UserState) (m : Message) :
  isAdmin (From_ID m) = false ->
  let out := handleUpdate w s (updateOf m) in
  List.filter isCatalogWrite (trace out) = []
  /\ (userStates out = s \/ userStates out = delete (From_ID m) s).
Proof.
  intros Ha. cbv zeta. unfold handleUpdate, updateOf; simpl.
  destruct (IsCommand m).
  - unfold commandBranch, stateless; cbv zeta. rewrite Ha.
    repeat case_match; simpl; (split; [|auto]); try done;
      stateless_read_only.
  - rewrite Ha. unfold buttonBranch, stateless; cbv zeta. rewrite Ha.
    repeat case_match; simplify_eq; simpl; (split; [|auto]); try done;
      stateless_read_only.
Qed.

(** ** Inputs that a stage turns down *)

Lemma rejected_step (w : World) (s : gmap Z UserState) (update : Update) :
  rejected w s update ->
  userStates (handleUpdate w s update) = s
  /\ exit (handleUpdate w s update) = Returned
  /\ List.filter isCatalogWrite (trace (handleUpdate w s update)) = [].
Proof.
  intros (m & st & Hm & Hoff & Hcase).
  destruct update as [msg]; simpl in Hm; subst msg. fold (updateOf m).
  rewrite (handleUpdate_offered _ _ _ _ Hoff).
  destruct Hcase as [(Hst & H1 & H2) | [(Hst & Hfind)
                     | (Hst & photos & photo & failure & Hp & Hlast & Hfail)]];
    enter_stage Hst.
  - apply String.eqb_neq in H1, H2. by rewrite H1, H2.
  - by rewrite Hfind.
  - rewrite Hp, Hlast.
    inversion Hfail as [Hu | fileURL Hu Hd | fileURL Hu Hd Hi]; subst failure;
      rewrite Hu; try rewrite Hd; try rewrite Hi; done.
Qed.

(** X6. Inputs that their stage turns down can be repeated any number of
    times: a run made only of invalid categories, titles the catalog does
    not find and photos whose media calls fail returns the session table
    exactly as it was and writes nothing to the catalog. *)
Theorem rejected_inputs_change_nothing
    (s : gmap Z UserState) (updates : list (World * Update)) :
  Forall (fun wu => rejected (fst wu) s (snd wu)) updates ->
  userStates (run s updates) = s
  /\ exit (run s updates) = Returned
  /\ List.filter isCatalogWrite (trace (run s updates)) = [].
Proof.
  induction 1 as [|[w update] rest Hhd _ IH]; [done|].
  destruct (rejected_step w s update Hhd) as (Hs & Hex & Hw).
  destruct IH as (IHs & IHex & IHw).
  simpl. rewrite Hex; simpl. rewrite Hs, List.filter_app, Hw, IHw. done.
Qed.

(** X7. "Cancel" at [edit_select_field] ends the edit: the session is
    deleted, the user is told so and shown the main menu, and nothing is
    written to the catalog. *)
Theorem edit_cancel_button_ends_dialog
    (w : World) (s : gmap Z UserState) (m : Message) (st : UserState) :
  offeredToStage s m st ->
  Stage st = "edit_select_field" ->
  Text m = "Cancel" ->
  handleUpdate w s (updateOf m) =
    mkOutcome (delete (From_ID m) s)
      (ESend (Chat_ID m) "Edit cancelled." (RemoveKeyboard true)
       :: fst (sendMainMenu (Chat_ID m)))
      Returned.
Proof.
  intros Hoff Hst Ht. rewrite (handleUpdate_offered _ _ _ _ Hoff).
  enter_stage Hst. rewrite Ht. by literal_eqb.
Qed.

(** X8. Browsing does not disturb a dialog: a command other than
    [/cancel], and a menu label other than "➕ Add Song" and
    "✏️ Edit Song", return the session table exactly as it was, so a
    dialog in progress is still at its stage afterwards. *)
Theorem browsing_keeps_sessions
    (w : World) (s : gmap Z UserState) (m : Message) :
  (IsCommand m = true /\ Command m <> "cancel")
  \/ (IsCommand m = false /\ isMenuLabel (Text m) = true
      /\ Text m <> "➕ Add Song" /\ Text m <> "✏️ Edit Song") ->
  userStates (handleUpdate w s (updateOf m)) = s.
Proof.
  intros [(Hc & Hcancel) | (Hc & Hl & Hadd & Hedit)];
    unfold handleUpdate, updateOf; simpl; rewrite Hc.
  - apply String.eqb_neq in Hcancel.
    unfold commandBranch, stateless; cbv zeta. rewrite Hcancel.
    by repeat case_match.
  - destruct (buttonBranch_label w s m Hl) as [out Hout]. rewrite Hout.
    revert Hout. apply String.eqb_neq in Hadd, Hedit.
    unfold buttonBranch, stateless; cbv zeta. rewrite Hadd, Hedit.
    repeat case_match; intros; by simplify_eq.
Qed.

(** X9. Once the image of the [awaiting_image] step resolves, the session
    is deleted whether the insert succeeds or fails: exactly one insert is
    issued, the user is sent the report that matches its result, and a
    song whose insert failed is not kept for another try. *)
Theorem insert_ends_session_either_way
    (w : World) (s : gmap Z UserState) (m : Message) (st : UserState)
    (imageURL : string) :
  offeredToStage s m st ->
  Stage st = "awaiting_image" ->
  resolveImage w m = Some imageURL ->
  let doc : Doc :=
    {[ "title" := BString (Title st); "lyrics" := BString (Lyrics st);
       "image" := BString imageURL; "category" := BString (Category st) ]} in
  let report :=
    match InsertOne w doc with
    | Failed => "Failed to add song."
    | Ok _ => "Song added successfully!"
    end in
  let out := handleUpdate w s (updateOf m) in
  userStates out = delete (From_ID m) s
  /\ exit out = Returned
  /\ List.filter isCatalogWrite (trace out) = [EInsertOne doc]
  /\ ESend (Chat_ID m) report NoMarkup ∈ trace out.
Proof.
  intros (Hc & Hl & Ha & Hs) Hst Hr. cbv zeta.
  destruct (image_step w s m st imageURL Ha Hs Hst) as
    (before & after & Hstep & Hb & Hafter); [done | done |].
  rewrite Hstep. unfold insertSong; simpl. split_and!; [done | done | |].
  - rewrite List.filter_app, Hb. simpl. by rewrite Hafter.
  - apply elem_of_app. right. apply list_elem_of_further, list_elem_of_here.
Qed.

(** X10. [/cancel] from a user who holds no session is silent: nothing is
    sent and the table is returned as it was; so a second [/cancel] in a
    row adds nothing to the first. *)
Theorem cancel_without_session_is_silent
    (w w' : World) (s : gmap Z UserState) (m : Message) :
  IsCommand m = true ->
  Command m = "cancel" ->
  (s !! From_ID m = None ->
   handleUpdate w s (updateOf m) = mkOutcome s [] Returned)
  /\ run s [(w, updateOf m); (w', updateOf m)] = handleUpdate w s (updateOf m).
Proof.
  intros Hc Hcmd.
  assert (forall w0 s0, s0 !! From_ID m = None ->
            handleUpdate w0 s0 (updateOf m) = mkOutcome s0 [] Returned) as Hidle.
  { intros w0 s0 Hs. unfold handleUpdate, updateOf; simpl. rewrite Hc.
    unfold commandBranch; cbv zeta. rewrite Hcmd. literal_eqb. by rewrite Hs. }
  split; [apply Hidle|].
  destruct (s !! From_ID m) as [st|] eqn:Hs.
  - assert (handleUpdate w s (updateOf m) =
            mkOutcome (delete (From_ID m) s)
              [ESend (Chat_ID m) "Song addition cancelled." NoMarkup] Returned)
      as Hfirst.
    { unfold handleUpdate, updateOf; simpl. rewrite Hc.
      unfold commandBranch; cbv zeta. rewrite Hcmd. literal_eqb. by rewrite Hs. }
    simpl. rewrite Hfirst; simpl.
    rewrite Hidle by apply lookup_delete_eq. done.
  - simpl. rewrite (Hidle w s Hs); simpl. by rewrite (Hidle w' s Hs).
Qed.

(** ** The temporary image file *)

(** Membership of a call in an explicit trace. *)
Ltac absent :=
  let H := fresh in
  intros H;
  repeat (apply elem_of_cons in H as [H|H]; [discriminate H|]);
  by apply elem_of_nil in H.

Ltac present :=
  repeat first [apply list_elem_of_here | apply list_elem_of_further].

(** X11. [/uploadimage] removes the temporary image file exactly when the
    download into it has succeeded, whether the upload to the image host
    then works or not, and the removal is the last thing it does. *)
Theorem upload_command_removes_file_iff_downloaded (w : World) (m : Message) :
  let tr := fst (uploadImageCommand w m) in
  (ERemove imagePath ∈ tr <->
     exists photos photo fileURL,
       Photo m = Some photos /\ last photos = Some photo
       /\ GetFileDirectURL w (FileID photo) = Ok fileURL
       /\ downloadFile w imagePath fileURL = Ok tt)
  /\ (ERemove imagePath ∈ tr -> last tr = Some (ERemove imagePath)).
Proof.
  cbv zeta. unfold uploadImageCommand.
  destruct (Photo m) as [photos|] eqn:Hp; simpl;
    [destruct (last photos) as [photo|] eqn:Hl; simpl;
     [destruct (GetFileDirectURL w (FileID photo)) as [fileURL|] eqn:Hu; simpl;
      [destruct (downloadFile w imagePath fileURL) as [[]|] eqn:Hd; simpl;
       [destruct (uploadImageToImgur w imagePath); simpl|]|]|]|].
  1,2: split; [split; [intros _; by exists photos, photo, fileURL
                      | intros _; present]
              | intros _; reflexivity].
  all: split;
         [split; [|intros (? & ? & ? & ? & ? & ? & ?); simplify_eq; congruence]|];
         intros Hin; exfalso; revert Hin; absent.
Qed.

(** X12. In the [awaiting_image] case the temporary image file is removed
    exactly when a download into it has succeeded, also when the upload
    then fails, and the removal comes after everything else, the insert
    and the reply included. *)
Theorem image_stage_removes_file_iff_downloaded
    (w : World) (s : gmap Z UserState) (m : Message) (st : UserState)
    (out : Outcome) :
  Stage st = "awaiting_image" ->
  stageBranch w s m st = Some out ->
  (ERemove imagePath ∈ trace out <->
     exists fileURL, EDownloadFile imagePath fileURL ∈ trace out
                     /\ downloadFile w imagePath fileURL = Ok tt)
  /\ (ERemove imagePath ∈ trace out ->
      last (trace out) = Some (ERemove imagePath)).
Proof.
  intros Hst. enter_stage Hst. unfold insertSong.
  destruct (Photo m) as [photos|];
    [destruct (last photos) as [photo|];
     [destruct (GetFileDirectURL w (FileID photo)) as [fileURL|] eqn:Hu;
      [destruct (downloadFile w imagePath fileURL) as [[]|] eqn:Hd;
       [destruct (uploadImageToImgur w imagePath)|]|]|]|];
    intros [= <-]; simpl.
  1,2: split; [split; [intros _; exists fileURL; split; [present | done]
                      | intros _; present]
              | intros _; reflexivity].
  all: split; [split|]; try (intros Hin; exfalso; revert Hin; absent).
  all: intros (url & Hin & Hok); exfalso; revert Hin.
  all: try absent.
  intros Hin. apply elem_of_cons in Hin as [Hin|Hin]; [discriminate|].
  apply elem_of_cons in Hin as [[= <-]|Hin]; [congruence|].
  revert Hin. absent.
Qed.

(** ** The [/addsong] command *)

Lemma Cut_None (s : string) (sep : ascii) :
  GoStrings.Cut s sep = None <-> countByte sep s = 0%nat.
Proof.
  induction s as [|c s IH]; simpl; [done|].
  destruct (Ascii.eqb c sep); [done|].
  destruct (GoStrings.Cut s sep) as [[a b]|]; simpl.
  - split; [done|]. intros H. by apply IH in H.
  - split; [|done]. intros _. by apply IH.
Qed.

Lemma Cut_Some (s : string) (sep : ascii) (a b : string) :
  GoStrings.Cut s sep = Some (a, b) ->
  s = a +:+ String sep b /\ countByte sep a = 0%nat
  /\ countByte sep s = S (countByte sep b).
Proof.
  revert a. induction s as [|c s IH]; intros a; simpl; [done|].
  destruct (Ascii.eqb c sep) eqn:Hc.
  - intros [= <- <-]. apply Ascii.eqb_eq in Hc as ->. done.
  - destruct (GoStrings.Cut s sep) as [[a' b']|]; [|done].
    intros [= <- <-]. destruct (IH a' eq_refl) as (-> & Ha & Hs).
    simpl. by rewrite Hc, Ha, Hs.
Qed.

(** X13. [/addsong] needs two "|" in its arguments. With fewer it only
    sends the usage line. With two or more it issues one insert whose
    title and lyrics are the trimmed texts before the first and the second
    "|" and whose image is everything after, trimmed, further "|"
    included; the document has no category, and the reply follows the
    result of the insert. *)
Theorem addsong_needs_two_separators (w : World) (m : Message) :
  let args := CommandArguments m in
  ((countByte "|" args < 2)%nat ->
   addSongCommand w m =
     ([ESend (Chat_ID m) "Usage: /addsong <title>|<lyrics>|<image_url>" NoMarkup],
      Some tt))
  /\ ((2 <= countByte "|" args)%nat ->
      exists a b c,
        args = a +:+ String "|" (b +:+ String "|" c)
        /\ countByte "|" a = 0%nat /\ countByte "|" b = 0%nat
        /\ let doc : Doc :=
             {[ "title" := BString (TrimSpace a);
                "lyrics" := BString (TrimSpace b);
                "image" := BString (TrimSpace c) ]} in
           addSongCommand w m =
             ([EInsertOne doc;
               ESend (Chat_ID m)
                 match InsertOne w doc with
                 | Failed => "Failed to add song."
                 | Ok _ => "Song added successfully!"
                 end NoMarkup],
              Some tt)
           /\ doc !! "category" = None).
Proof.
  cbv zeta. unfold addSongCommand. simpl GoStrings.SplitN.
  destruct (GoStrings.Cut (CommandArguments m) "|") as [[a r]|] eqn:H1.
  - destruct (Cut_Some _ _ _ _ H1) as (Hargs & Ha & Hn). rewrite Hn.
    destruct (GoStrings.Cut r "|") as [[b c]|] eqn:H2.
    + destruct (Cut_Some _ _ _ _ H2) as (Hr & Hb & Hn2). rewrite Hn2.
      split; [lia|]. intros _. exists a, b, c. rewrite Hargs, Hr.
      split_and!; [done | done | done | | done].
      by destruct (InsertOne w _).
    + apply Cut_None in H2. rewrite H2. split; [done | lia].
  - apply Cut_None in H1. rewrite H1. split; [done | lia].
Qed.

(** ** Looking songs up *)

(** X14. [getRandomSong] never panics, whatever the catalog yields, and
    always ends by sending one text. For a picked document that text
    shows title, category and lyrics, each empty when the field is missing
    or not a string, and the image is shared before it exactly when the
    document has a non-empty string image. *)
Theorem random_song_tolerates_any_document (w : World) (m : Message) :
  snd (getRandomSong w m) = Some tt
  /\ (exists text, last (fst (getRandomSong w m))
                   = Some (ESend (Chat_ID m) text NoMarkup))
  /\ forall d rest,
       Aggregate w [ {[ "$sample" := BDoc {[ "size" := BInt 1 ]} ]} ]
         = Ok (Ok d :: rest) ->
       last (fst (getRandomSong w m)) =
         Some (ESend (Chat_ID m)
                 ("Title: " +:+ stringOr d "title" +:+ LF +:+
                  "Category: " +:+ stringOr d "category" +:+ LF +:+
                  LF +:+ "Lyrics:" +:+ LF +:+ stringOr d "lyrics") NoMarkup)
       /\ forall url,
            EPhotoShare (Chat_ID m) url ∈ fst (getRandomSong w m)
            <-> d !! "image" = Some (BString url) /\ url <> "".
Proof.
  unfold getRandomSong; cbv zeta.
  destruct (Aggregate w _) as [[|[d|] rest]|] eqn:Ha; simpl;
    (split_and!; [| |intros d' rest' [= <- <-] || (intros ? ? [=])]);
    try done; try (by eexists).
  - destruct (asString (d !! "image")) as [url|] eqn:Hi;
      [destruct (String.eqb url "") eqn:He|]; simpl; done.
  - destruct (asString (d !! "image")) as [url|] eqn:Hi;
      [destruct (String.eqb url "") eqn:He|]; simpl; by eexists.
  - destruct (asString (d !! "image")) as [url|] eqn:Hi;
      [destruct (String.eqb url "") eqn:He|]; simpl; (split; [done|]);
      intros url'; unfold asString in Hi; repeat case_match; simplify_eq.
    + apply String.eqb_eq in He as ->. split.
      * intros Hin. exfalso. revert Hin. absent.
      * by intros [[= <-] Hne].
    + apply String.eqb_neq in He. split.
      * intros Hin. apply elem_of_cons in Hin as [Hin|Hin]; [done|].
        apply elem_of_cons in Hin as [[= <-]|Hin]; [done|].
        exfalso. revert Hin. absent.
      * intros [[= <-] _]. present.
    + split; [intros Hin; exfalso; revert Hin; absent | by intros [[=] _]].
    + split; [intros Hin; exfalso; revert Hin; absent | by intros [[=] _]].
    + split; [intros Hin; exfalso; revert Hin; absent | by intros [[=] _]].
Qed.

(** X15. [/lyrics] panics exactly when the catalog finds a document whose
    lyrics or image is missing or not a string, and then nothing has been
    sent. Otherwise it returns: with the image shared first and the lyrics
    sent after it when the song is found, with an apology when it is
    not. *)
Theorem lyrics_command_panics_iff_untyped_document (w : World) (m : Message) :
  let filter : Doc := {[ "title" := BString (CommandArguments m) ]} in
  (snd (lyricsCommand w m) = None <->
     exists d, FindOne w filter = Ok d
               /\ (asString (d !! "lyrics") = None
                   \/ asString (d !! "image") = None))
  /\ (snd (lyricsCommand w m) = None ->
      fst (lyricsCommand w m) = [EFindOne filter])
  /\ (forall d lyrics imageURL,
        FindOne w filter = Ok d ->
        asString (d !! "lyrics") = Some lyrics ->
        asString (d !! "image") = Some imageURL ->
        lyricsCommand w m =
          ([EFindOne filter; EPhotoShare (Chat_ID m) imageURL;
            ESend (Chat_ID m) lyrics NoMarkup], Some tt))
  /\ (FindOne w filter = Failed ->
      lyricsCommand w m =
        ([EFindOne filter;
          ESend (Chat_ID m) "Sorry, I couldn't find the lyrics for that song."
            NoMarkup], Some tt)).
Proof.
  cbv zeta. unfold lyricsCommand, getLyricsFromDB; cbv zeta.
  destruct (FindOne w _) as [d|] eqn:Hf; simpl.
  - destruct (asString (d !! "lyrics")) as [l|] eqn:Hl; simpl;
      [destruct (asString (d !! "image")) as [i|] eqn:Hi; simpl|].
    + split_and!; [|done| |done].
      * split; [done|]. intros (d' & [= <-] & [?|?]); congruence.
      * intros d' l' i' [= <-] ? ?. by simplify_eq.
    + split_and!; [|done| |done].
      * split; [|done]. intros _. exists d. auto.
      * intros d' l' i' [= <-] ? ?. congruence.
    + split_and!; [|done| |done].
      * split; [|done]. intros _. exists d. auto.
      * intros d' l' i' [= <-] ? ?. congruence.
  - split_and!; [|done|done|done].
    split; [done|]. by intros (d' & [=] & _).
Qed.

(** ** Listings *)

Lemma collectTitles_titled (docs : list Doc) (songs : list string) :
  Forall titled docs ->
  collectTitles (map Ok docs) songs =
    ret (Ok (songs ++ map (fun d => stringOr d "title") docs)).
Proof.
  intros Hdocs. revert songs. induction Hdocs as [|d docs [t Ht] _ IH];
    intros songs; simpl.
  - by rewrite app_nil_r.
  - unfold stringOr. rewrite Ht, IH. by rewrite <- app_assoc.
Qed.

Lemma collectTitles_decode_failure (docs : list Doc) (rest : Cursor)
    (songs : list string) :
  Forall titled docs ->
  collectTitles (map Ok docs ++ Failed :: rest) songs = ret Failed.
Proof.
  intros Hdocs. revert songs. induction Hdocs as [|d docs [t Ht] _ IH];
    intros songs; simpl; [done|]. by rewrite Ht, IH.
Qed.

(** X16. The category listing offers every song the catalog returns: when
    the query yields documents with string titles, the reply carries one
    inline button per document, in the order of the cursor, whose label
    and callback data are both the title; when it yields none, the reply
    says that no song of the category was found. *)
Theorem category_listing_offers_every_song
    (w : World) (m : Message) (category : string) (docs : list Doc) :
  Find w {[ "category" := BString category ]} = Ok (map Ok docs) ->
  Forall titled docs ->
  showSongsByCategory w m category =
    ([EFind {[ "category" := BString category ]};
      match docs with
      | [] => ESend (Chat_ID m) ("No " +:+ category +:+ " songs found.") NoMarkup
      | _ =>
          ESend (Chat_ID m) ("Select a " +:+ category +:+ " song:")
            (InlineKeyboard
               [map (fun d => (stringOr d "title", stringOr d "title")) docs])
      end],
     Some tt).
Proof.
  intros Hfind Hdocs. unfold showSongsByCategory; cbv zeta.
  rewrite Hfind. unfold bind at 1; simpl.
  rewrite (collectTitles_titled _ _ Hdocs); simpl.
  destruct docs as [|d docs]; simpl; [done|].
  unfold songButtons. simpl. by rewrite map_map.
Qed.

Lemma alphabet_check (a : string) :
  negb (String.length a =? 1)%nat || String.ltb a "A" || String.ltb "Z" a = false
  <-> isCapital a.
Proof.
  destruct a as [|c [|d r]].
  - split; [done|]. by intros (c & [=] & _).
  - destruct c as [[] [] [] [] [] [] [] []];
      (split;
       [ intros H; vm_compute in H;
         first [ discriminate H
               | eexists; split; [reflexivity | vm_compute; lia] ]
       | intros (c' & [= <-] & Hlo & Hhi); vm_compute in Hlo, Hhi;
         first [reflexivity | lia] ]).
  - split; [done|]. by intros (c' & [=] & _).
Qed.

(** X17. The alphabet handler accepts exactly the texts whose upper-case
    form is one byte between "A" and "Z". Every other text, the empty one
    and longer ones included, is answered with the request for a valid
    letter and no query is made. An accepted text is looked up as a
    case-insensitive title prefix, and when the documents returned have
    string titles the reply carries one button per document, in cursor
    order, or says that nothing starts with the letter. *)
Theorem alphabet_selection_accepts_capitals_only
    (w : World) (m : Message) :
  let alphabet := ToUpper (Text m) in
  (~ isCapital alphabet ->
   handleAlphabetSelection w m =
     ([ESend (Chat_ID m) "Please select a valid alphabet (A-Z)." NoMarkup],
      Some tt))
  /\ (isCapital alphabet ->
      forall docs,
        Find w (titlePrefixQuery alphabet) = Ok (map Ok docs) ->
        Forall titled docs ->
        handleAlphabetSelection w m =
          ([EFind (titlePrefixQuery alphabet);
            match docs with
            | [] =>
                ESend (Chat_ID m)
                  ("No songs found starting with " +:+ alphabet +:+ ".") NoMarkup
            | _ =>
                ESend (Chat_ID m) "Select a song to get the lyrics:"
                  (InlineKeyboard
                     [map (fun d => (stringOr d "title", stringOr d "title"))
                        docs])
            end],
           Some tt)).
Proof.
  cbv zeta. unfold handleAlphabetSelection; cbv zeta.
  pose proof (alphabet_check (ToUpper (Text m))) as Hcheck.
  destruct (negb _ || _ || _) eqn:Hc.
  - split; [done|]. intros Hcap. apply Hcheck in Hcap. discriminate.
  - split; [intros Hno; destruct Hno; by apply Hcheck|].
    intros _ docs Hfind Hdocs. rewrite Hfind. unfold bind at 1; simpl.
    rewrite (collectTitles_titled _ _ Hdocs); simpl.
    destruct docs as [|d docs]; simpl; [done|].
    unfold songButtons. simpl. by rewrite map_map.
Qed.

(** X18. A listing that cannot be read is dropped without a word: when
    the query fails, or a document fails to decode after documents that
    all have titles, the category listing and the alphabet listing send
    nothing at all, and the reply to an unknown command comes without
    suggestions. None of them panics. *)
Theorem unreadable_listing_is_silent
    (w : World) (m : Message) (category : string) :
  (unreadable (Find w {[ "category" := BString category ]}) ->
   showSongsByCategory w m category =
     ([EFind {[ "category" := BString category ]}], Some tt))
  /\ (isCapital (ToUpper (Text m)) ->
      unreadable (Find w (titlePrefixQuery (ToUpper (Text m)))) ->
      handleAlphabetSelection w m =
        ([EFind (titlePrefixQuery (ToUpper (Text m)))], Some tt))
  /\ (unreadable (Find w (titlePrefixQuery (Text m))) ->
      defaultMessage w m =
        ([EFind (titlePrefixQuery (Text m));
          ESend (Chat_ID m) ("You said: " +:+ Text m) NoMarkup], Some tt)).
Proof.
  split_and!.
  - intros [Hf | (docs & rest & Hf & Hdocs)];
      unfold showSongsByCategory; cbv zeta; rewrite Hf; [done|].
    unfold bind at 1; simpl.
    by rewrite (collectTitles_decode_failure _ _ _ Hdocs).
  - intros Hcap Hun. apply alphabet_check in Hcap.
    unfold handleAlphabetSelection; cbv zeta. rewrite Hcap.
    destruct Hun as [Hf | (docs & rest & Hf & Hdocs)]; rewrite Hf; [done|].
    unfold bind at 1; simpl.
    by rewrite (collectTitles_decode_failure _ _ _ Hdocs).
  - intros [Hf | (docs & rest & Hf & Hdocs)];
      unfold defaultMessage, getSuggestions; cbv zeta; rewrite Hf; [done|].
    unfold bind at 2; simpl.
    by rewrite (collectTitles_decode_failure _ _ _ Hdocs).
Qed.

(** ** Inline callbacks *)

(** X19. Callback data equal to one of the six placeholder tokens is never
    looked up in the catalog: the user is told that the feature is coming
    soon and the callback is answered. A song whose title is one of these
    tokens can therefore not be opened from its button. *)
Theorem placeholder_data_is_never_looked_up
    (w : World) (callbackQuery : CallbackQuery) (message : Message) :
  CQ_Data callbackQuery ∈ placeholderTokens ->
  CQ_Message callbackQuery = Some message ->
  handleCallbackQuery w callbackQuery =
    ([Called (ESend (Chat_ID message)
                ("You selected: " +:+ CQ_Data callbackQuery +:+ LF +:+
                 "This feature is coming soon!") NoMarkup);
      EAnswerCallbackQuery (CQ_ID callbackQuery) ""],
     Returned).
Proof.
  intros Hdata Hmsg. unfold handleCallbackQuery, callbackReply; cbv zeta.
  rewrite Hmsg. unfold placeholderTokens in Hdata.
  repeat (apply elem_of_cons in Hdata as [-> | Hdata]; [reflexivity|]).
  by apply elem_of_nil in Hdata.
Qed.

(** X20. Callback data that is not a placeholder token is the title of the
    song to open: the catalog is asked for that exact title; a song found
    has its image shared and then its lyrics sent, a song not found is
    answered with an apology, and in both cases the callback is answered
    last. *)
Theorem callback_opens_the_song_named_by_its_data
    (w : World) (callbackQuery : CallbackQuery) (message : Message) :
  CQ_Data callbackQuery ∉ placeholderTokens ->
  CQ_Message callbackQuery = Some message ->
  let filter : Doc := {[ "title" := BString (CQ_Data callbackQuery) ]} in
  (forall d lyrics imageURL,
     FindOne w filter = Ok d ->
     asString (d !! "lyrics") = Some lyrics ->
     asString (d !! "image") = Some imageURL ->
     handleCallbackQuery w callbackQuery =
       ([Called (EFindOne filter);
         Called (EPhotoShare (Chat_ID message) imageURL);
         Called (ESend (Chat_ID message) lyrics NoMarkup);
         EAnswerCallbackQuery (CQ_ID callbackQuery) ""],
        Returned))
  /\ (FindOne w filter = Failed ->
      handleCallbackQuery w callbackQuery =
        ([Called (EFindOne filter);
          Called (ESend (Chat_ID message)
                    "Sorry, I couldn't find the lyrics for that song." NoMarkup);
          EAnswerCallbackQuery (CQ_ID callbackQuery) ""],
         Returned)).
Proof.
  intros Hdata Hmsg. cbv zeta.
  assert (String.eqb (CQ_Data callbackQuery) "popular_series"
          || String.eqb (CQ_Data callbackQuery) "new_series"
          || String.eqb (CQ_Data callbackQuery) "popular_movies"
          || String.eqb (CQ_Data callbackQuery) "new_movies"
          || String.eqb (CQ_Data callbackQuery) "popular_anime"
          || String.eqb (CQ_Data callbackQuery) "new_anime" = false) as Hnone.
  { apply not_true_iff_false. intros Hsome. apply Hdata.
    unfold placeholderTokens.
    repeat (apply orb_prop in Hsome as [Hsome|Hsome]);
      apply String.eqb_eq in Hsome; rewrite Hsome; present. }
  unfold handleCallbackQuery, callbackReply, getLyricsFromDB; cbv zeta.
  rewrite Hnone, Hmsg. split.
  - intros d lyrics imageURL Hf Hl Hi. rewrite Hf; simpl. by rewrite Hl, Hi.
  - intros Hf. by rewrite Hf.
Qed.

(** X21. [handleCallbackQuery] answers the callback exactly when it does
    not panic, and the answer is then its last call. It panics exactly
    when the callback carries no message, or its data is not a
    placeholder token and the catalog finds a document whose lyrics or
    image is missing or not a string. *)
Theorem callback_is_answered_unless_it_panics
    (w : World) (callbackQuery : CallbackQuery) :
  let out := handleCallbackQuery w callbackQuery in
  (snd out = Returned <->
     last (fst out) = Some (EAnswerCallbackQuery (CQ_ID callbackQuery) ""))
  /\ (snd out = Panicked <->
       CQ_Message callbackQuery = None
       \/ ((CQ_Data callbackQuery ∉ placeholderTokens)
           /\ exists d,
                FindOne w {[ "title" := BString (CQ_Data callbackQuery) ]} = Ok d
                /\ (asString (d !! "lyrics") = None
                    \/ asString (d !! "image") = None))).
Proof.
  cbv zeta.
  assert (forall tr : list Effect,
            (last (map Called tr))
            <> (Some (EAnswerCallbackQuery (CQ_ID callbackQuery) ""))) as Hcalled.
  { intros tr. change (map Called tr) with (Called <$> tr).
    rewrite fmap_last. by destruct (last tr). }
  assert (String.eqb (CQ_Data callbackQuery) "popular_series"
          || String.eqb (CQ_Data callbackQuery) "new_series"
          || String.eqb (CQ_Data callbackQuery) "popular_movies"
          || String.eqb (CQ_Data callbackQuery) "new_movies"
          || String.eqb (CQ_Data callbackQuery) "popular_anime"
          || String.eqb (CQ_Data callbackQuery) "new_anime" = true
          <-> CQ_Data callbackQuery ∈ placeholderTokens) as Htoken.
  { unfold placeholderTokens. split.
    - intros Hsome. repeat (apply orb_prop in Hsome as [Hsome|Hsome]);
        apply String.eqb_eq in Hsome; rewrite Hsome; present.
    - intros Hin.
      repeat (apply elem_of_cons in Hin as [-> | Hin]; [reflexivity|]).
      by apply elem_of_nil in Hin. }
  unfold handleCallbackQuery.
  destruct (callbackReply w callbackQuery) as [tr [[]|]] eqn:Hreply; simpl.
  - split; [split; [intros _; apply last_snoc | done]|].
    split; [done|]. intros Hpanic. exfalso. revert Hreply.
    unfold callbackReply, getLyricsFromDB; cbv zeta.
    destruct Hpanic as [Hnil | (Hdata & d & Hf & Hbad)].
    + rewrite Hnil. repeat case_match; simpl; repeat case_match; done.
    + destruct (_ || _) eqn:Htok; [exfalso; by apply Hdata, Htoken|].
      rewrite Hf; simpl.
      destruct Hbad as [-> | Hi]; [done|].
      destruct (asString (d !! "lyrics")); [by rewrite Hi | done].
  - split; [split; [done | intros Hlast; by apply Hcalled in Hlast]|].
    split; [|done]. intros _. revert Hreply.
    unfold callbackReply, getLyricsFromDB; cbv zeta.
    destruct (CQ_Message callbackQuery) as [message|]; [|auto].
    destruct (_ || _) eqn:Hdata; [done|].
    intros Hreply. right. split.
    { intros Hin. apply Htoken in Hin. congruence. }
    destruct (FindOne w _) as [d|] eqn:Hf; simpl in Hreply; [|done].
    exists d. split; [done|].
    destruct (asString (d !! "lyrics")); [|auto].
    destruct (asString (d !! "image")); [done | auto].
Qed.

(** ** Panics *)

Lemma returns_ret {A} (a : A) : returns (ret a).
Proof. by eexists. Qed.

Lemma returns_emit (e : Effect) : returns (emit e).
Proof. by eexists. Qed.

Lemma returns_bind {A B} (h : M A) (k : A -> M B) :
  returns h -> (forall a, returns (k a)) -> returns (bind h k).
Proof.
  unfold returns, bind. destruct h as [tr [a|]]; simpl.
  - intros _ Hk. specialize (Hk a). by destruct (k a).
  - by intros [? ?].
Qed.

Lemma returns_collectTitles (c : Cursor) (songs : list string) :
  songCursor c -> returns (collectTitles c songs).
Proof.
  intros Hc. revert songs. induction Hc as [|[d|] c Hd _ IH]; intros songs;
    simpl; try apply returns_ret.
  destruct Hd as ([t Ht] & _). rewrite Ht. apply IH.
Qed.

Lemma returns_listing (w : World) (filter : Doc) (k : GoResult (list string) -> M unit) :
  songCatalog w -> (forall r, returns (k r)) ->
  returns match Find w filter with
          | Failed => ret tt
          | Ok cursor => bind (collectTitles cursor []) k
          end.
Proof.
  intros [_ Hfind] Hk. destruct (Find w filter) as [c|] eqn:Hf.
  - apply returns_bind; [|done]. eapply returns_collectTitles, Hfind, Hf.
  - apply returns_ret.
Qed.

Lemma returns_stateless (w : World) (m : Message) :
  songCatalog w -> Photo m <> Some [] ->
  returns (sendMainMenu (Chat_ID m)) /\ returns (helpCommand m)
  /\ returns (lyricsCommand w m) /\ returns (addSongCommand w m)
  /\ returns (uploadImageCommand w m) /\ returns (defaultMessage w m)
  /\ returns (handleAlphabetSelection w m)
  /\ (forall category, returns (showSongsByCategory w m category))
  /\ returns (getRandomSong w m).
Proof.
  intros Hw Hphoto. pose proof Hw as [Hone Hmany]. split_and!.
  - by eexists.
  - by eexists.
  - unfold lyricsCommand, getLyricsFromDB; cbv zeta.
    destruct (FindOne w _) as [d|] eqn:Hf; [|by eexists].
    destruct (Hone _ _ Hf) as (_ & [l Hl] & [i Hi]).
    simpl. rewrite Hl, Hi. by eexists.
  - unfold addSongCommand. repeat case_match; by eexists.
  - unfold uploadImageCommand.
    destruct (Photo m) as [photos|]; [|by eexists].
    destruct (last photos) eqn:Hl; [|by apply last_None in Hl; subst].
    repeat case_match; by eexists.
  - unfold defaultMessage, getSuggestions; cbv zeta.
    apply returns_bind; [|intros; apply returns_emit].
    apply returns_bind; [apply returns_emit|]. intros _.
    destruct (Find w _) as [c|] eqn:Hf; [|apply returns_ret].
    apply returns_bind; [eapply returns_collectTitles, Hmany, Hf|].
    intros [?|]; apply returns_ret.
  - unfold handleAlphabetSelection; cbv zeta.
    destruct (negb _ || _ || _); [apply returns_emit|].
    apply returns_bind; [apply returns_emit|]. intros _.
    apply returns_listing; [done|]. intros [[|? ?]|]; by eexists.
  - intros category. unfold showSongsByCategory; cbv zeta.
    apply returns_bind; [apply returns_emit|]. intros _.
    apply returns_listing; [done|]. intros [[|? ?]|]; by eexists.
  - unfold getRandomSong; cbv zeta. repeat case_match; by eexists.
Qed.

Lemma stateless_returned (s : gmap Z UserState) (h : M unit) :
  returns h -> exit (stateless s h) = Returned.
Proof. intros [[] Hh]. unfold stateless. by rewrite Hh. Qed.

Lemma handleUpdate_returns (w : World) (s : gmap Z UserState) (update : Update) :
  safeUpdate (w, update) -> exit (handleUpdate w s update) = Returned.
Proof.
  intros [Hw Hphoto]. simpl in *. unfold handleUpdate.
  destruct (Msg update) as [m|]; [|done]. specialize (Hphoto m eq_refl).
  destruct (returns_stateless w m Hw Hphoto)
    as (Hmenu & Hhelp & Hlyrics & Hadd & Hupload & Hdefault & Halpha
        & Hcategory & Hrandom).
  destruct (IsCommand m).
  - unfold commandBranch; cbv zeta.
    repeat case_match; try done; by apply stateless_returned.
  - destruct (buttonBranch w s m) as [out|] eqn:Hb.
    + revert Hb. unfold buttonBranch; cbv zeta.
      repeat case_match; intros; simplify_eq; try done;
        by apply stateless_returned.
    + assert (forall st out, stageBranch w s m st = Some out ->
                exit out = Returned) as Hstage.
      { intros st out. unfold stageBranch, insertSong; cbv zeta.
        repeat case_match; intros; simplify_eq; try done.
        - match goal with H : last _ = None |- _ =>
            apply last_None in H; by subst end.
        - exfalso.
          repeat match goal with
          | H : _ || _ = true |- _ => apply orb_prop in H as [H|H]
          end;
          match goal with
          | H : String.eqb (Text m) _ = true, E : GoStrings.Split _ _ !! _ = _
            |- _ => apply String.eqb_eq in H; rewrite H in E; vm_compute in E;
                    discriminate E
          end. }
      destruct (isAdmin (From_ID m)); [|by apply stateless_returned].
      destruct (s !! From_ID m) as [st|]; [|by apply stateless_returned].
      destruct (stageBranch w s m st) as [out|] eqn:Hst;
        [by eapply Hstage | by apply stateless_returned].
Qed.

(** X22. The process does not panic as long as the catalog holds song
    documents (string title, lyrics and image) and no message carries an
    empty photo list: every such run of [handleUpdate] returns. In
    particular [strings.Split(text, " ")[1]] in the edit flow is always in
    range, being reached only for the four two-word labels. *)
Theorem run_returns_on_song_catalogs
    (s : gmap Z UserState) (updates : list (World * Update)) :
  Forall safeUpdate updates -> exit (run s updates) = Returned.
Proof.
  intros Hsafe. revert s. induction Hsafe as [|[w update] rest Hhd _ IH];
    intros s; [done|].
  simpl. rewrite (handleUpdate_returns w s update Hhd). simpl. apply IH.
Qed.

End Bot.

(** ** The theorems at concrete inputs *)

(** The Add flow for "Night Song", ended by a photo that the image host
    accepts. *)
Lemma add_flow_inserts_once_witness :
  List.filter isInsertOne
    (trace (run GoStrings.asciiToUpper GoStrings.asciiTrimSpace ∅
       [ (quietWorld, updateOf (textFrom anAdmin "➕ Add Song"));
         (quietWorld, updateOf (textFrom anAdmin "Night Song"));
         (quietWorld, updateOf (textFrom anAdmin "Choir"));
         (quietWorld, updateOf (textFrom anAdmin "La la la"));
         (quietWorld, updateOf (photoFrom anAdmin "file-1")) ])) =
    [EInsertOne
       {[ "title" := BString "Night Song";
          "lyrics" := BString "La la la";
          "image" := BString "https://i.imgur.com/night.jpg";
          "category" := BString "Choir" ]}].
Proof.
  apply (add_flow_inserts_once GoStrings.asciiToUpper GoStrings.asciiTrimSpace
           ∅ anAdmin quietWorld quietWorld quietWorld quietWorld quietWorld
           (textFrom anAdmin "➕ Add Song") (textFrom anAdmin "Night Song")
           (textFrom anAdmin "Choir") (textFrom anAdmin "La la la")
           (photoFrom anAdmin "file-1") "https://i.imgur.com/night.jpg");
    try reflexivity; try (repeat split; reflexivity).
  left; reflexivity.
Defined.

(** "Cancel" typed as the title of a new song is not taken by any case of
    the text switch: after "➕ Add Song" the stage stores it as the title
    and moves on to the category. *)
Lemma cancel_typed_as_title_reaches_stage :
  isMenuLabel "Cancel" = false
  /\ buttonBranch quietWorld
       {[ anAdmin := mkUserState "awaiting_title" "" "" "" false "" ]}
       (textFrom anAdmin "Cancel") = None
  /\ run GoStrings.asciiToUpper GoStrings.asciiTrimSpace ∅
       [ (quietWorld, updateOf (textFrom anAdmin "➕ Add Song"));
         (quietWorld, updateOf (textFrom anAdmin "Cancel")) ] =
     mkOutcome
       {[ anAdmin := mkUserState "awaiting_category" "Cancel" "" "" false "" ]}
       [ESend anAdmin
          ("Please enter the song title:" +:+ LF +:+ "(or type /cancel to abort)")
          NoMarkup;
        ESend anAdmin "Please select the song category:" categoryKeyboard]
       Returned.
Proof. repeat split; reflexivity. Qed.

(** Each part of the order at a session that a run produces: a command, a
    label pressed in the middle of the Add flow, a title offered to the
    stage, a text of a user without a session, and "Cancel" at the two
    stages named above. *)
Lemma dispatch_order_witness :
  handleUpdate GoStrings.asciiToUpper GoStrings.asciiTrimSpace quietWorld
    {[ anAdmin := mkUserState "awaiting_title" "" "" "" false "" ]}
    (updateOf (commandFrom anAdmin "start")) =
    commandBranch GoStrings.asciiTrimSpace quietWorld
      {[ anAdmin := mkUserState "awaiting_title" "" "" "" false "" ]}
      (commandFrom anAdmin "start")
  /\ (exists out,
        buttonBranch quietWorld
          {[ anAdmin := mkUserState "awaiting_title" "" "" "" false "" ]}
          (textFrom anAdmin "🎲 Random Song") = Some out
        /\ handleUpdate GoStrings.asciiToUpper GoStrings.asciiTrimSpace
             quietWorld
             {[ anAdmin := mkUserState "awaiting_title" "" "" "" false "" ]}
             (updateOf (textFrom anAdmin "🎲 Random Song")) = out
        /\ forall s', exists out',
             handleUpdate GoStrings.asciiToUpper GoStrings.asciiTrimSpace
               quietWorld s' (updateOf (textFrom anAdmin "🎲 Random Song")) = out'
             /\ trace out' = trace out /\ exit out' = exit out)
  /\ handleUpdate GoStrings.asciiToUpper GoStrings.asciiTrimSpace quietWorld
       {[ anAdmin := mkUserState "awaiting_title" "" "" "" false "" ]}
       (updateOf (textFrom anAdmin "Night Song")) =
     mkOutcome
       (<[ anAdmin := mkUserState "awaiting_category" "Night Song" "" "" false "" ]>
          {[ anAdmin := mkUserState "awaiting_title" "" "" "" false "" ]})
       [ESend anAdmin "Please select the song category:" categoryKeyboard]
       Returned
  /\ handleUpdate GoStrings.asciiToUpper GoStrings.asciiTrimSpace quietWorld
       {[ anAdmin := mkUserState "awaiting_title" "" "" "" false "" ]}
       (updateOf (textFrom aVisitor "n")) =
     stateless {[ anAdmin := mkUserState "awaiting_title" "" "" "" false "" ]}
       (handleAlphabetSelection GoStrings.asciiToUpper quietWorld
          (textFrom aVisitor "n"))
  /\ handleUpdate GoStrings.asciiToUpper GoStrings.asciiTrimSpace quietWorld
       {[ anAdmin := mkUserState "awaiting_title" "" "" "" false "" ]}
       (updateOf (textFrom anAdmin "Cancel")) =
     mkOutcome
       (<[ anAdmin := mkUserState "awaiting_category" "Cancel" "" "" false "" ]>
          {[ anAdmin := mkUserState "awaiting_title" "" "" "" false "" ]})
       [ESend anAdmin "Please select the song category:" categoryKeyboard]
       Returned
  /\ handleUpdate GoStrings.asciiToUpper GoStrings.asciiTrimSpace quietWorld
       {[ anAdmin := mkUserState "edit_select_field" "Night Song" "" "" true "" ]}
       (updateOf (textFrom anAdmin "Cancel")) =
     mkOutcome
       (delete anAdmin
          {[ anAdmin := mkUserState "edit_select_field" "Night Song" "" "" true "" ]})
       (ESend anAdmin "Edit cancelled." (RemoveKeyboard true)
        :: fst (sendMainMenu anAdmin))
       Returned.
Proof.
  assert (forall text : string,
            isMenuLabel text = false -> text ∉ menuLabels) as Hfree.
  { intros text Hl Hin. apply isMenuLabel_elem in Hin. congruence. }
  split_and!.
  - apply (dispatch_order GoStrings.asciiToUpper GoStrings.asciiTrimSpace
             quietWorld
             {[ anAdmin := mkUserState "awaiting_title" "" "" "" false "" ]}
             (commandFrom anAdmin "start")).
    reflexivity.
  - destruct (dispatch_order GoStrings.asciiToUpper GoStrings.asciiTrimSpace
                quietWorld
                {[ anAdmin := mkUserState "awaiting_title" "" "" "" false "" ]}
                (textFrom anAdmin "🎲 Random Song"))
      as (_ & _ & Hlabel & _).
    apply Hlabel; [reflexivity|].
    apply isMenuLabel_elem. reflexivity.
  - destruct (dispatch_order GoStrings.asciiToUpper GoStrings.asciiTrimSpace
                quietWorld
                {[ anAdmin := mkUserState "awaiting_title" "" "" "" false "" ]}
                (textFrom anAdmin "Night Song"))
      as (_ & _ & _ & Hstage & _).
    apply (Hstage eq_refl (Hfree "Night Song" eq_refl)
             (mkUserState "awaiting_title" "" "" "" false ""));
      reflexivity.
  - destruct (dispatch_order GoStrings.asciiToUpper GoStrings.asciiTrimSpace
                quietWorld
                {[ anAdmin := mkUserState "awaiting_title" "" "" "" false "" ]}
                (textFrom aVisitor "n"))
      as (_ & _ & _ & _ & Hfallback & _).
    apply (Hfallback eq_refl (Hfree "n" eq_refl)).
    left. reflexivity.
  - destruct (dispatch_order GoStrings.asciiToUpper GoStrings.asciiTrimSpace
                quietWorld
                {[ anAdmin := mkUserState "awaiting_title" "" "" "" false "" ]}
                (textFrom anAdmin "Cancel"))
      as (_ & _ & _ & _ & _ & _ & Hcancel).
    destruct (Hcancel eq_refl eq_refl
                (mkUserState "awaiting_title" "" "" "" false "")
                eq_refl eq_refl) as [Htitle _].
    apply Htitle. reflexivity.
  - destruct (dispatch_order GoStrings.asciiToUpper GoStrings.asciiTrimSpace
                quietWorld
                {[ anAdmin := mkUserState "edit_select_field" "Night Song" ""
                                "" true "" ]}
                (textFrom anAdmin "Cancel"))
      as (_ & _ & _ & _ & _ & _ & Hcancel).
    destruct (Hcancel eq_refl eq_refl
                (mkUserState "edit_select_field" "Night Song" "" "" true "")
                eq_refl eq_refl) as [_ Hedit].
    apply Hedit. reflexivity.
Defined.

(** The photo of the spec's scenario: the image host is down. *)
Lemma media_failure_keeps_session_witness :
  userStates
    (handleUpdate GoStrings.asciiToUpper GoStrings.asciiTrimSpace imgurDownWorld
       {[ anAdmin := nightSong "awaiting_image" ]}
       (updateOf (photoFrom anAdmin "file-1"))) !! anAdmin =
    Some (nightSong "awaiting_image").
Proof.
  assert (mediaFails imgurDownWorld {| FileID := "file-1" |}
            "Failed to upload image to Imgur.") as Hfails.
  { apply (fails_upload imgurDownWorld {| FileID := "file-1" |}
             "https://api.telegram.org/file/file-1"); reflexivity. }
  destruct (media_failure_keeps_session GoStrings.asciiToUpper
              GoStrings.asciiTrimSpace imgurDownWorld
              {[ anAdmin := nightSong "awaiting_image" ]}
              (photoFrom anAdmin "file-1") (nightSong "awaiting_image")
              [ {| FileID := "file-1" |} ] {| FileID := "file-1" |}
              "Failed to upload image to Imgur."
              eq_refl eq_refl eq_refl Hfails)
    as (tr & _ & _ & _ & Hoffered).
  apply Hoffered. repeat split; reflexivity.
Defined.

Lemma cancel_command_returns_to_idle_witness :
  handleUpdate GoStrings.asciiToUpper GoStrings.asciiTrimSpace quietWorld
    {[ anAdmin := nightSong "awaiting_lyrics" ]}
    (updateOf (commandFrom anAdmin "cancel")) =
    mkOutcome (delete anAdmin {[ anAdmin := nightSong "awaiting_lyrics" ]})
      [ESend anAdmin "Song addition cancelled." NoMarkup] Returned.
Proof.
  apply (cancel_command_returns_to_idle GoStrings.asciiToUpper
           GoStrings.asciiTrimSpace quietWorld
           {[ anAdmin := nightSong "awaiting_lyrics" ]}
           (commandFrom anAdmin "cancel") (nightSong "awaiting_lyrics"));
    reflexivity.
Defined.

(** A visitor who somehow holds a session types a title. *)
Lemma unprivileged_sender_bypasses_state_machine_witness :
  userStates
    (handleUpdate GoStrings.asciiToUpper GoStrings.asciiTrimSpace quietWorld
       {[ aVisitor := nightSong "awaiting_title" ]}
       (updateOf (textFrom aVisitor "My Song"))) =
    {[ aVisitor := nightSong "awaiting_title" ]}.
Proof.
  apply (unprivileged_sender_bypasses_state_machine GoStrings.asciiToUpper
           GoStrings.asciiTrimSpace quietWorld
           {[ aVisitor := nightSong "awaiting_title" ]}
           (textFrom aVisitor "My Song")).
  - reflexivity.
  - left; reflexivity.
Defined.

(** Renaming "Night Song": the filter is the old title. *)
Lemma edit_flow_updates_picked_field_by_captured_title_witness :
  List.filter isCatalogWrite
    (trace (run GoStrings.asciiToUpper GoStrings.asciiTrimSpace ∅
       [ (quietWorld, updateOf (textFrom anAdmin "✏️ Edit Song"));
         (quietWorld, updateOf (textFrom anAdmin "Night Song"));
         (quietWorld, updateOf (textFrom anAdmin "Edit Title"));
         (quietWorld, updateOf (textFrom anAdmin "Morning Song")) ])) =
    [EUpdateOne {[ "title" := BString "Night Song" ]}
       {[ "$set" := BDoc {[ "title" := BString "Morning Song" ]} ]}].
Proof.
  apply (edit_flow_updates_picked_field_by_captured_title
           GoStrings.asciiToUpper GoStrings.asciiTrimSpace ∅ anAdmin
           quietWorld quietWorld quietWorld quietWorld
           (textFrom anAdmin "✏️ Edit Song") (textFrom anAdmin "Night Song")
           (textFrom anAdmin "Edit Title") (textFrom anAdmin "Morning Song")
           {[ "title" := BString "Night Song" ]} "title");
    try reflexivity; try (repeat split; reflexivity).
  apply list_elem_of_here.
Defined.

Lemma invalid_category_reprompts_witness :
  handleUpdate GoStrings.asciiToUpper GoStrings.asciiTrimSpace quietWorld
    {[ anAdmin := nightSong "awaiting_category" ]}
    (updateOf (textFrom anAdmin "Solo")) =
    mkOutcome {[ anAdmin := nightSong "awaiting_category" ]}
      [ESend anAdmin "Please select a valid category (Choir/Non-Choir):" NoMarkup]
      Returned.
Proof.
  apply (invalid_category_reprompts GoStrings.asciiToUpper
           GoStrings.asciiTrimSpace quietWorld
           {[ anAdmin := nightSong "awaiting_category" ]}
           (textFrom anAdmin "Solo") (nightSong "awaiting_category"));
    try discriminate; repeat split; reflexivity.
Defined.

(** The catalog refuses the update; the session is deleted all the same. *)
Lemma edit_value_ends_session_either_way_witness :
  handleUpdate GoStrings.asciiToUpper GoStrings.asciiTrimSpace mongoDownWorld
    {[ anAdmin := mkUserState "edit_enter_value" "Night Song" "" "" true "lyrics" ]}
    (updateOf (textFrom anAdmin "Tra la la")) =
    mkOutcome ∅
      ([EUpdateOne {[ "title" := BString "Night Song" ]}
          {[ "$set" := BDoc {[ "lyrics" := BString "Tra la la" ]} ]};
        ESend anAdmin "Failed to update the song." NoMarkup]
       ++ fst (sendMainMenu anAdmin))
      Returned.
Proof.
  destruct (edit_value_ends_session_either_way GoStrings.asciiToUpper
              GoStrings.asciiTrimSpace mongoDownWorld
              {[ anAdmin := mkUserState "edit_enter_value" "Night Song" "" ""
                              true "lyrics" ]}
              (textFrom anAdmin "Tra la la")
              (mkUserState "edit_enter_value" "Night Song" "" "" true "lyrics")
              eq_refl)
    as (_ & _ & _ & Hoffered).
  rewrite Hoffered by (repeat split; reflexivity). reflexivity.
Defined.

Lemma add_button_denied_without_privilege_witness :
  handleUpdate GoStrings.asciiToUpper GoStrings.asciiTrimSpace quietWorld ∅
    (updateOf (textFrom aVisitor "➕ Add Song")) =
    mkOutcome ∅ [ESend aVisitor "You are not authorized to add songs." NoMarkup]
      Returned.
Proof.
  apply (add_button_denied_without_privilege GoStrings.asciiToUpper
           GoStrings.asciiTrimSpace quietWorld ∅
           (textFrom aVisitor "➕ Add Song"));
    reflexivity.
Defined.

Lemma unmatched_edit_field_falls_through_witness :
  handleUpdate GoStrings.asciiToUpper GoStrings.asciiTrimSpace quietWorld
    {[ anAdmin := mkUserState "edit_select_field" "Night Song" "" "" true "" ]}
    (updateOf (textFrom anAdmin "b")) =
    stateless
      {[ anAdmin := mkUserState "edit_select_field" "Night Song" "" "" true "" ]}
      (handleAlphabetSelection GoStrings.asciiToUpper quietWorld
         (textFrom anAdmin "b")).
Proof.
  apply (unmatched_edit_field_falls_through GoStrings.asciiToUpper
           GoStrings.asciiTrimSpace quietWorld
           {[ anAdmin := mkUserState "edit_select_field" "Night Song" "" "" true "" ]}
           (textFrom anAdmin "b")
           (mkUserState "edit_select_field" "Night Song" "" "" true ""));
    try discriminate; try (repeat split; reflexivity).
  rewrite list_elem_of_In. simpl. intuition discriminate.
Defined.

(** ** The further properties at concrete inputs *)

Ltac in_trace :=
  repeat first [apply list_elem_of_here | apply list_elem_of_further].

Ltac only_sender H :=
  apply Exists_cons in H as [(? & [= <-] & <-)|H];
  [| by apply Exists_nil in H].

Lemma nightSong_table_wellFormed (stage : string) :
  wellFormed (nightSong stage) = true ->
  wellFormedTable {[ anAdmin := nightSong stage ]}.
Proof. intros Hst. apply map_Forall_singleton. by split. Qed.

Lemma twoSongsWorld_songCatalog : songCatalog twoSongsWorld.
Proof.
  split.
  - intros filter d [= <-]. repeat split; by eexists.
  - intros filter c [= <-]. repeat constructor; by eexists.
Qed.

(** The visitor's stray session plays no part in the administrator's
    dialog. *)
Lemma run_reads_senders_sessions_only_witness :
  trace (run GoStrings.asciiToUpper GoStrings.asciiTrimSpace
           {[ anAdmin := nightSong "awaiting_lyrics" ]}
           [ (quietWorld, updateOf (textFrom anAdmin "La la la")) ]) =
  trace (run GoStrings.asciiToUpper GoStrings.asciiTrimSpace
           (<[ aVisitor := nightSong "awaiting_title" ]>
              {[ anAdmin := nightSong "awaiting_lyrics" ]})
           [ (quietWorld, updateOf (textFrom anAdmin "La la la")) ]).
Proof.
  apply (run_reads_senders_sessions_only GoStrings.asciiToUpper
           GoStrings.asciiTrimSpace).
  intros u Hu. only_sender Hu. reflexivity.
Defined.

Lemma run_keeps_sessions_of_silent_users_witness :
  userStates
    (run GoStrings.asciiToUpper GoStrings.asciiTrimSpace
       {[ aVisitor := nightSong "awaiting_title" ]}
       [ (quietWorld, updateOf (textFrom anAdmin "➕ Add Song")) ])
    !! aVisitor =
  ({[ aVisitor := nightSong "awaiting_title" ]} : gmap Z UserState) !! aVisitor.
Proof.
  apply (run_keeps_sessions_of_silent_users GoStrings.asciiToUpper
           GoStrings.asciiTrimSpace).
  intros Hu. apply Exists_cons in Hu as [(m & [= <-] & Heq)|Hu].
  - vm_compute in Heq. discriminate Heq.
  - by apply Exists_nil in Hu.
Defined.

Lemma run_keeps_sessions_well_formed_witness :
  wellFormedTable
    (userStates
       (run GoStrings.asciiToUpper GoStrings.asciiTrimSpace ∅
          [ (quietWorld, updateOf (textFrom anAdmin "➕ Add Song"));
            (quietWorld, updateOf (textFrom anAdmin "Night Song"));
            (quietWorld, updateOf (textFrom anAdmin "Choir")) ])).
Proof.
  apply (run_keeps_sessions_well_formed GoStrings.asciiToUpper
           GoStrings.asciiTrimSpace).
  apply map_Forall_empty.
Defined.

Lemma dialog_writes_are_well_formed_witness :
  isAdmin anAdmin = true
  /\ dialogWrite
       (EInsertOne
          {[ "title" := BString "Night Song"; "lyrics" := BString "La la la";
             "image" := BString "https://i.imgur.com/n.jpg";
             "category" := BString "Choir" ]}).
Proof.
  apply (dialog_writes_are_well_formed GoStrings.asciiToUpper
           GoStrings.asciiTrimSpace quietWorld
           {[ anAdmin := nightSong "awaiting_image" ]}
           (textFrom anAdmin "https://i.imgur.com/n.jpg")).
  - by apply nightSong_table_wellFormed.
  - reflexivity.
  - vm_compute. in_trace.
  - reflexivity.
Defined.

Lemma no_write_and_no_session_without_privilege_witness :
  List.filter isCatalogWrite
    (trace (handleUpdate GoStrings.asciiToUpper GoStrings.asciiTrimSpace
              quietWorld ∅ (updateOf (commandFrom aVisitor "addsong")))) = [].
Proof.
  apply (no_write_and_no_session_without_privilege GoStrings.asciiToUpper
           GoStrings.asciiTrimSpace quietWorld ∅ (commandFrom aVisitor "addsong")).
  reflexivity.
Defined.

Lemma rejected_inputs_change_nothing_witness :
  userStates
    (run GoStrings.asciiToUpper GoStrings.asciiTrimSpace
       {[ anAdmin := nightSong "awaiting_category" ]}
       [ (quietWorld, updateOf (textFrom anAdmin "Solo"));
         (quietWorld, updateOf (textFrom anAdmin "Duet")) ]) =
  {[ anAdmin := nightSong "awaiting_category" ]}.
Proof.
  apply (rejected_inputs_change_nothing GoStrings.asciiToUpper
           GoStrings.asciiTrimSpace).
  repeat constructor;
    (eexists _, (nightSong "awaiting_category");
     split; [reflexivity|]; split; [repeat split; reflexivity|];
     left; repeat split; discriminate).
Defined.

Lemma edit_cancel_button_ends_dialog_witness :
  handleUpdate GoStrings.asciiToUpper GoStrings.asciiTrimSpace quietWorld
    {[ anAdmin := mkUserState "edit_select_field" "Night Song" "" "" true "" ]}
    (updateOf (textFrom anAdmin "Cancel")) =
  mkOutcome
    (delete anAdmin
       {[ anAdmin := mkUserState "edit_select_field" "Night Song" "" "" true "" ]})
    (ESend anAdmin "Edit cancelled." (RemoveKeyboard true)
     :: fst (sendMainMenu anAdmin))
    Returned.
Proof.
  apply (edit_cancel_button_ends_dialog GoStrings.asciiToUpper
           GoStrings.asciiTrimSpace quietWorld
           {[ anAdmin := mkUserState "edit_select_field" "Night Song" "" "" true "" ]}
           (textFrom anAdmin "Cancel")
           (mkUserState "edit_select_field" "Night Song" "" "" true ""));
    repeat split; reflexivity.
Defined.

(** The random-song button pressed in the middle of the Add flow. *)
Lemma browsing_keeps_sessions_witness :
  userStates
    (handleUpdate GoStrings.asciiToUpper GoStrings.asciiTrimSpace quietWorld
       {[ anAdmin := nightSong "awaiting_lyrics" ]}
       (updateOf (textFrom anAdmin "🎲 Random Song"))) =
  {[ anAdmin := nightSong "awaiting_lyrics" ]}.
Proof.
  apply (browsing_keeps_sessions GoStrings.asciiToUpper
           GoStrings.asciiTrimSpace).
  right. repeat split; (reflexivity || discriminate).
Defined.

Lemma insert_ends_session_either_way_witness :
  userStates
    (handleUpdate GoStrings.asciiToUpper GoStrings.asciiTrimSpace mongoDownWorld
       {[ anAdmin := nightSong "awaiting_image" ]}
       (updateOf (textFrom anAdmin "https://i.imgur.com/n.jpg"))) =
  delete anAdmin {[ anAdmin := nightSong "awaiting_image" ]}.
Proof.
  apply (insert_ends_session_either_way GoStrings.asciiToUpper
           GoStrings.asciiTrimSpace mongoDownWorld
           {[ anAdmin := nightSong "awaiting_image" ]}
           (textFrom anAdmin "https://i.imgur.com/n.jpg")
           (nightSong "awaiting_image") "https://i.imgur.com/n.jpg");
    repeat split; reflexivity.
Defined.

Lemma cancel_without_session_is_silent_witness :
  handleUpdate GoStrings.asciiToUpper GoStrings.asciiTrimSpace quietWorld ∅
    (updateOf (commandFrom anAdmin "cancel")) =
  mkOutcome ∅ [] Returned.
Proof.
  apply (cancel_without_session_is_silent GoStrings.asciiToUpper
           GoStrings.asciiTrimSpace quietWorld quietWorld ∅
           (commandFrom anAdmin "cancel"));
    reflexivity.
Defined.

(** The image host is down: the downloaded file is removed all the same. *)
Lemma upload_command_removes_file_iff_downloaded_witness :
  ERemove imagePath ∈ fst (uploadImageCommand imgurDownWorld
                             (photoFrom anAdmin "file-1")).
Proof.
  apply (upload_command_removes_file_iff_downloaded imgurDownWorld
           (photoFrom anAdmin "file-1")).
  exists [ {| FileID := "file-1" |} ], {| FileID := "file-1" |},
    "https://api.telegram.org/file/file-1".
  repeat split; reflexivity.
Defined.

Lemma image_stage_removes_file_iff_downloaded_witness :
  last (trace
          (handleUpdate GoStrings.asciiToUpper GoStrings.asciiTrimSpace
             imgurDownWorld {[ anAdmin := nightSong "awaiting_image" ]}
             (updateOf (photoFrom anAdmin "file-1")))) =
  Some (ERemove imagePath).
Proof.
  apply (image_stage_removes_file_iff_downloaded imgurDownWorld
           {[ anAdmin := nightSong "awaiting_image" ]}
           (photoFrom anAdmin "file-1") (nightSong "awaiting_image")).
  - reflexivity.
  - reflexivity.
  - vm_compute. in_trace.
Defined.

(** One separator is not enough; a third one stays in the image URL. *)
Lemma addsong_needs_two_separators_witness :
  addSongCommand GoStrings.asciiTrimSpace quietWorld
    {| Chat_ID := anAdmin; From_ID := anAdmin;
       Text := "/addsong Night Song | La la la"; Photo := None;
       IsCommand := true; Command := "addsong";
       CommandArguments := "Night Song | La la la" |} =
    ([ESend anAdmin "Usage: /addsong <title>|<lyrics>|<image_url>" NoMarkup],
     Some tt)
  /\ exists a b c,
       "Night Song | La la la | http://x/a|b.png"
         = a +:+ String "|" (b +:+ String "|" c)
       /\ countByte "|" a = 0%nat /\ countByte "|" b = 0%nat.
Proof.
  split.
  - apply (addsong_needs_two_separators GoStrings.asciiTrimSpace quietWorld
             {| Chat_ID := anAdmin; From_ID := anAdmin;
                Text := "/addsong Night Song | La la la"; Photo := None;
                IsCommand := true; Command := "addsong";
                CommandArguments := "Night Song | La la la" |}).
    vm_compute. lia.
  - destruct (addsong_needs_two_separators GoStrings.asciiTrimSpace quietWorld
                {| Chat_ID := anAdmin; From_ID := anAdmin;
                   Text := "/addsong"; Photo := None;
                   IsCommand := true; Command := "addsong";
                   CommandArguments :=
                     "Night Song | La la la | http://x/a|b.png" |})
      as [_ Hinsert].
    destruct Hinsert as (a & b & c & Hargs & Ha & Hb & _);
      [vm_compute; lia|].
    exists a, b, c. split; [exact Hargs | split; assumption].
Defined.

Lemma random_song_tolerates_any_document_witness :
  last (fst (getRandomSong bareWorld (textFrom aVisitor "🎲 Random Song"))) =
  Some (ESend aVisitor
          ("Title: Bare Song" +:+ LF +:+ "Category: " +:+ LF +:+
           LF +:+ "Lyrics:" +:+ LF) NoMarkup).
Proof.
  destruct (random_song_tolerates_any_document bareWorld
              (textFrom aVisitor "🎲 Random Song")) as (_ & _ & Hpicked).
  destruct (Hpicked bareDoc [] eq_refl) as [Hlast _].
  exact Hlast.
Defined.

(** The same document asked for by [/lyrics]. *)
Lemma lyrics_command_panics_iff_untyped_document_witness :
  snd (lyricsCommand bareWorld (commandFrom aVisitor "lyrics")) = None.
Proof.
  apply (lyrics_command_panics_iff_untyped_document bareWorld
           (commandFrom aVisitor "lyrics")).
  exists bareDoc. split; [reflexivity | left; reflexivity].
Defined.

Lemma category_listing_offers_every_song_witness :
  showSongsByCategory twoSongsWorld (textFrom aVisitor "👥 Choir Songs") "Choir" =
    ([EFind {[ "category" := BString "Choir" ]};
      ESend aVisitor "Select a Choir song:"
        (InlineKeyboard
           [[("Night Song", "Night Song"); ("Noon Song", "Noon Song")]])],
     Some tt).
Proof.
  apply (category_listing_offers_every_song twoSongsWorld
           (textFrom aVisitor "👥 Choir Songs") "Choir" [nightDoc; noonDoc]).
  - reflexivity.
  - repeat constructor; by eexists.
Defined.

Lemma alphabet_selection_accepts_capitals_only_witness :
  handleAlphabetSelection GoStrings.asciiToUpper twoSongsWorld
    (textFrom aVisitor "hello") =
    ([ESend aVisitor "Please select a valid alphabet (A-Z)." NoMarkup], Some tt)
  /\ handleAlphabetSelection GoStrings.asciiToUpper twoSongsWorld
       (textFrom aVisitor "n") =
       ([EFind (titlePrefixQuery "N");
         ESend aVisitor "Select a song to get the lyrics:"
           (InlineKeyboard
              [[("Night Song", "Night Song"); ("Noon Song", "Noon Song")]])],
        Some tt).
Proof.
  split.
  - apply (alphabet_selection_accepts_capitals_only GoStrings.asciiToUpper
             twoSongsWorld (textFrom aVisitor "hello")).
    intros (c & Heq & _). vm_compute in Heq. discriminate Heq.
  - destruct (alphabet_selection_accepts_capitals_only GoStrings.asciiToUpper
                twoSongsWorld (textFrom aVisitor "n")) as [_ Hcapital].
    assert (isCapital (GoStrings.asciiToUpper "n")) as Hn.
    { exists "N"%char. split; [reflexivity | vm_compute; lia]. }
    apply (Hcapital Hn [nightDoc; noonDoc] eq_refl).
    repeat constructor; by eexists.
Defined.

(** The second document of the cursor fails to decode. *)
Lemma unreadable_listing_is_silent_witness :
  showSongsByCategory bareWorld (textFrom aVisitor "👥 Choir Songs") "Choir" =
    ([EFind {[ "category" := BString "Choir" ]}], Some tt).
Proof.
  apply (unreadable_listing_is_silent GoStrings.asciiToUpper bareWorld
           (textFrom aVisitor "👥 Choir Songs") "Choir").
  right. exists [nightDoc], [Ok bareDoc]. split; [reflexivity|].
  repeat constructor; by eexists.
Defined.

Lemma placeholder_data_is_never_looked_up_witness :
  handleCallbackQuery twoSongsWorld (callbackFrom aVisitor "new_anime") =
    ([Called (ESend aVisitor
                ("You selected: new_anime" +:+ LF +:+
                 "This feature is coming soon!") NoMarkup);
      EAnswerCallbackQuery "cb-1" ""],
     Returned).
Proof.
  apply (placeholder_data_is_never_looked_up twoSongsWorld
           (callbackFrom aVisitor "new_anime") (textFrom aVisitor "")).
  - unfold placeholderTokens. in_trace.
  - reflexivity.
Defined.

Lemma callback_opens_the_song_named_by_its_data_witness :
  handleCallbackQuery twoSongsWorld (callbackFrom aVisitor "Night Song") =
    ([Called (EFindOne {[ "title" := BString "Night Song" ]});
      Called (EPhotoShare aVisitor "https://i.imgur.com/night.jpg");
      Called (ESend aVisitor "La la la" NoMarkup);
      EAnswerCallbackQuery "cb-1" ""],
     Returned).
Proof.
  destruct (callback_opens_the_song_named_by_its_data twoSongsWorld
              (callbackFrom aVisitor "Night Song") (textFrom aVisitor ""))
    as [Hfound _].
  - unfold placeholderTokens. intros Hin.
    repeat (apply elem_of_cons in Hin as [Hin|Hin]; [discriminate Hin|]).
    by apply elem_of_nil in Hin.
  - reflexivity.
  - apply (Hfound nightDoc "La la la" "https://i.imgur.com/night.jpg");
      reflexivity.
Defined.

Lemma run_returns_on_song_catalogs_witness :
  exit (run GoStrings.asciiToUpper GoStrings.asciiTrimSpace ∅
          [ (twoSongsWorld, updateOf (commandFrom aVisitor "lyrics"));
            (twoSongsWorld, updateOf (photoFrom anAdmin "file-1")) ]) =
  Returned.
Proof.
  apply (run_returns_on_song_catalogs GoStrings.asciiToUpper
           GoStrings.asciiTrimSpace).
  repeat (apply Forall_cons_2;
          [split; [apply twoSongsWorld_songCatalog
                  | intros m [= <-]; discriminate] |]).
  apply Forall_nil_2.
Defined.
